(** * DAX to SparkSQL converter: batching, orchestration, artifacts, reader

    A shallow embedding of the Python sources
      - [dax_uc_metric_view_converter.py] (splitter, worker, orchestrator,
        combiner) and
      - [aas_metrics/read_aas_metrics.py] (the metric reader),
    followed by the properties of the batch orchestration engine.

    Conventions of the embedding.
      - Python exceptions are values: a computation returns [Ok v] or
        [Raise e]; code that touches the output folder or the clock threads a
        [world] explicitly, and the effects made before an exception stay.
      - A Python [str] is a [string]; its characters are the code points
        below 256.  Files are opened with utf-8 on a POSIX system, so what is
        written is what is stored, and reading applies the universal-newline
        translation.
      - [print] calls are not modelled: they write to the console only. *)

From Stdlib Require Import ZArith Lia String Ascii Permutation Sorted.
From stdpp Require Import gmap strings list fin_maps.

Open Scope Z_scope.

(* ===================================================================== *)
(** * Part I: definitions                                                 *)
(* ===================================================================== *)

(** ** Exceptions and results *)

Inductive exn_kind :=
  | ValueError
  | ZeroDivisionError
  | FileNotFoundError
  | AttributeError
  | TypeError
  | JSONDecodeError
  | Exception.

(** An exception object: its class and [str(exc)]. *)
Record exn := Exn { exn_class : exn_kind; exn_str : string }.

Inductive result (A : Type) :=
  | Ok (a : A)
  | Raise (e : exn).
Arguments Ok {A} a.
Arguments Raise {A} e.

Definition is_ok {A} (r : result A) : bool :=
  match r with Ok _ => true | Raise _ => false end.

(** ** [range] and slicing *)

(** Number of elements of [range(start, stop, step)] for a non-zero step. *)
Definition range_len (start stop step : Z) : Z :=
  if 0 <? step
  then (if start <? stop then (stop - start - 1) / step + 1 else 0)
  else (if stop <? start then (start - stop - 1) / (- step) + 1 else 0).

Definition py_range (start stop step : Z) : result (list Z) :=
  if step =? 0
  then Raise (Exn ValueError "range() arg 3 must not be zero")
  else Ok (map (fun k => start + Z.of_nat k * step)
               (seq 0 (Z.to_nat (range_len start stop step)))).

(** A slice bound: negative bounds count from the end, all are clipped. *)
Definition clamp_index (n i : Z) : Z :=
  if i <? 0 then Z.max (i + n) 0 else Z.min i n.

(** [l[i:j]]. *)
Definition py_slice {A} (l : list A) (i j : Z) : list A :=
  let n := Z.of_nat (length l) in
  let lo := clamp_index n i in
  let hi := clamp_index n j in
  take (Z.to_nat (hi - lo)) (drop (Z.to_nat lo) l).

(** ** Batch splitter *)

(** [create_batches(metrics_list, batch_size)]: the loop appends
    [metrics_list[i:i + batch_size]] for each [i] of
    [range(0, len(metrics_list), batch_size)]. *)
Definition create_batches {A} (metrics_list : list A) (batch_size : Z)
  : result (list (list A)) :=
  match py_range 0 (Z.of_nat (length metrics_list)) batch_size with
  | Raise e => Raise e
  | Ok idx =>
      Ok (fold_left
            (fun batches i =>
               let batch := py_slice metrics_list i (i + batch_size) in
               batches ++ [batch])
            idx [])
  end.

(** The batches as the spec describes them: the [k]-th batch is the run of
    [b] units that starts at position [k * b]. *)
Definition chunk {A} (b : nat) (l : list A) (k : nat) : list A :=
  take b (drop (k * b) l).


(** ** Strings *)

Definition LF : ascii := ascii_of_nat 10.
Definition CR : ascii := ascii_of_nat 13.

(** [str.isspace] on one character: the code points below 256 that Python
    treats as whitespace. *)
Definition isspace (c : ascii) : bool :=
  let n := nat_of_ascii c in
  ((9 <=? n) && (n <=? 13) || (28 <=? n) && (n <=? 32)
   || (n =? 133) || (n =? 160))%nat.

Definition nonempty (s : string) : bool :=
  match s with EmptyString => false | String _ _ => true end.

Fixpoint lstrip (s : string) : string :=
  match s with
  | EmptyString => EmptyString
  | String c r => if isspace c then lstrip r else s
  end.

Fixpoint rstrip (s : string) : string :=
  match s with
  | EmptyString => EmptyString
  | String c r =>
      let r' := rstrip r in
      if isspace c && negb (nonempty r') then EmptyString else String c r'
  end.

(** [s.strip()]: leading whitespace is skipped, then trailing whitespace. *)
Definition strip (s : string) : string := rstrip (lstrip s).

(** [needle in s]. *)
Fixpoint contains (needle s : string) : bool :=
  String.prefix needle s
  || match s with
     | EmptyString => false
     | String _ r => contains needle r
     end.

Definition startswith (s pre : string) : bool := String.prefix pre s.

(** [s.endswith(suf)]: some tail of [s] is [suf]. *)
Fixpoint endswith (s suf : string) : bool :=
  String.eqb s suf
  || match s with
     | EmptyString => false
     | String _ r => endswith r suf
     end.

(** [s[len(pre):]] when [s] starts with [pre]. *)
Fixpoint strip_prefix (pre s : string) : option string :=
  match pre with
  | EmptyString => Some s
  | String a pre' =>
      match s with
      | EmptyString => None
      | String b s' => if Ascii.eqb a b then strip_prefix pre' s' else None
      end
  end.

(** [s * n]. *)
Fixpoint str_repeat (s : string) (n : nat) : string :=
  match n with
  | O => EmptyString
  | S n' => s +:+ str_repeat s n'
  end.

Definition digit_char (d : nat) : ascii := ascii_of_nat (48 + d).

Fixpoint str_of_nat_aux (fuel n : nat) (acc : string) : string :=
  let acc' := String (digit_char (n mod 10)) acc in
  match fuel with
  | O => acc'
  | S fuel' =>
      if (n / 10 =? 0)%nat then acc' else str_of_nat_aux fuel' (n / 10) acc'
  end.

(** [str(n)] for a non-negative [int]. *)
Definition str_of_nat (n : nat) : string := str_of_nat_aux n n EmptyString.

(** Zero padding to [width] digits, as [%02d] and the like. *)
Definition zfill (width : nat) (s : string) : string :=
  str_repeat "0" (width - String.length s) +:+ s.

(** A line boundary of [str.splitlines] (code points below 256). *)
Definition is_linebreak (c : ascii) : bool :=
  let n := nat_of_ascii c in
  ((10 <=? n) && (n <=? 13) || (28 <=? n) && (n <=? 30) || (n =? 133))%nat.

(** [s.splitlines()]: the lines without their terminators; [\r\n] is one
    terminator. *)
Fixpoint splitlines (s : string) : list string :=
  match s with
  | EmptyString => []
  | String c r =>
      if is_linebreak c then
        EmptyString ::
          (if Ascii.eqb c CR then
             match r with
             | String c' r' => if Ascii.eqb c' LF then splitlines r'
                               else splitlines r
             | EmptyString => splitlines r
             end
           else splitlines r)
      else
        match splitlines r with
        | [] => [String c EmptyString]
        | l :: ls => String c l :: ls
        end
  end.

(** Reading a text file opened with the default [newline=None]: [\r\n] and a
    lone [\r] become [\n]. *)
Fixpoint universal_newlines (s : string) : string :=
  match s with
  | EmptyString => EmptyString
  | String c r =>
      if Ascii.eqb c CR then
        String LF
          match r with
          | String c' r' => if Ascii.eqb c' LF then universal_newlines r'
                            else universal_newlines r
          | EmptyString => universal_newlines r
          end
      else String c (universal_newlines r)
  end.

(** The lines of a decoded text, each with its [\n] (the last one may lack
    it). *)
Fixpoint keepends_lines (s : string) : list string :=
  match s with
  | EmptyString => []
  | String c r =>
      if Ascii.eqb c LF then String c EmptyString :: keepends_lines r
      else
        match keepends_lines r with
        | [] => [String c EmptyString]
        | l :: ls => String c l :: ls
        end
  end.

(** [file.readlines()] on the stored text of a file. *)
Definition readlines (stored : string) : list string :=
  keepends_lines (universal_newlines stored).

(** ** Sorting *)

Fixpoint insert_by {A} (le : A -> A -> bool) (x : A) (l : list A) : list A :=
  match l with
  | [] => [x]
  | y :: l' => if le x y then x :: l else y :: insert_by le x l'
  end.

(** [sorted(l)] / [l.sort(key=...)]: a stable sort, here by insertion. *)
Definition py_sorted {A} (le : A -> A -> bool) (l : list A) : list A :=
  foldr (insert_by le) [] l.

(** ** Paths *)

Definition SEP : ascii := ascii_of_nat 47.

(** The directory part that [os.path.join(a, ...)] puts before a relative
    name. *)
Definition dir_base (a : string) : string :=
  if negb (nonempty a) || endswith a "/" then a else a +:+ "/".

(** [os.path.join(a, b)]. *)
Definition os_path_join (a b : string) : string :=
  if startswith b "/" then b else dir_base a +:+ b.

(** [os.path.basename(p)]: what follows the last [/]. *)
Fixpoint os_path_basename (p : string) : string :=
  match p with
  | EmptyString => EmptyString
  | String c r =>
      if contains "/" r then os_path_basename r
      else if Ascii.eqb c SEP then r else p
  end.

(** ** JSON values and the metric reader *)

(** What [json.load] returns.  A [float] is carried by the one observation
    the reader makes of it directly, its truth value; a [dict] keeps its
    pairs in the order of the file. *)
#[warnings="-register-all"]
Inductive json :=
  | JNull
  | JBool (b : bool)
  | JInt (n : Z)
  | JFloat (nonzero : bool)
  | JStr (s : string)
  | JList (items : list json)
  | JDict (pairs : list (string * json)).

(** [bool(v)]. *)
Definition truthy (v : json) : bool :=
  match v with
  | JNull => false
  | JBool b => b
  | JInt n => negb (n =? 0)
  | JFloat nz => nz
  | JStr s => nonempty s
  | JList items => match items with [] => false | _ => true end
  | JDict pairs => match pairs with [] => false | _ => true end
  end.

Definition type_name (v : json) : string :=
  match v with
  | JNull => "NoneType"
  | JBool _ => "bool"
  | JInt _ => "int"
  | JFloat _ => "float"
  | JStr _ => "str"
  | JList _ => "list"
  | JDict _ => "dict"
  end.

Definition no_attribute (v : json) (attr : string) : exn :=
  Exn AttributeError
      ("'" +:+ type_name v +:+ "' object has no attribute '" +:+ attr +:+ "'").

(** Lookup in the pairs of a JSON object: a repeated key keeps its last
    value. *)
Fixpoint dict_lookup (pairs : list (string * json)) (key : string)
  : option json :=
  match pairs with
  | [] => None
  | (k, v) :: rest =>
      match dict_lookup rest key with
      | Some v' => Some v'
      | None => if String.eqb k key then Some v else None
      end
  end.

(** [v.get(key, dflt)]. *)
Definition py_get (v : json) (key : string) (dflt : json) : result json :=
  match v with
  | JDict pairs => Ok (default dflt (dict_lookup pairs key))
  | _ => Raise (no_attribute v "get")
  end.

(** What a [for] loop over [v] visits: the items of a list, the characters
    of a string, the keys of a dict (each once, in order of first
    appearance). *)
Fixpoint chars_of (s : string) : list json :=
  match s with
  | EmptyString => []
  | String c r => JStr (String c EmptyString) :: chars_of r
  end.

Fixpoint dict_keys (pairs : list (string * json)) (seen : list string)
  : list json :=
  match pairs with
  | [] => []
  | (k, _) :: rest =>
      if bool_decide (k ∈ seen) then dict_keys rest seen
      else JStr k :: dict_keys rest (k :: seen)
  end.

Definition py_iter (v : json) : result (list json) :=
  match v with
  | JList items => Ok items
  | JStr s => Ok (chars_of s)
  | JDict pairs => Ok (dict_keys pairs [])
  | _ => Raise (Exn TypeError
                    ("'" +:+ type_name v +:+ "' object is not iterable"))
  end.

(** A simplified metric, [{"name": ..., "expression": ...}]: the name is
    whatever truthy value the file holds, the expression is formatted
    text. *)
Record metric := { name : json; expression : string }.

Section Reader.

(** [str(v)] of a number, a boolean or a dict: a builtin of the language,
    not of this repository. *)
Variable py_str : json -> string.

(** The comprehension [[part.strip() for part in expression if
    part.strip()]]. *)
Fixpoint clean_parts (expression : list json) : result (list string) :=
  match expression with
  | [] => Ok []
  | part :: rest =>
      match part with
      | JStr p =>
          if nonempty (strip p) then
            match clean_parts rest with
            | Ok parts => Ok (strip p :: parts)
            | Raise e => Raise e
            end
          else clean_parts rest
      | _ => Raise (no_attribute part "strip")
      end
  end.

Definition _format_expression (expression : json) : result string :=
  match expression with
  | JStr s => Ok (strip s)
  | JList items =>
      match clean_parts items with
      | Ok parts => Ok (String.concat " " parts)
      | Raise e => Raise e
      end
  | JNull => Ok EmptyString
  | other => Ok (py_str other)
  end.

(** The body of [for measure in measures] with its accumulator. *)
Fixpoint simplify_measures (measures : list json)
         (simplified_metrics : list metric) : result (list metric) :=
  match measures with
  | [] => Ok simplified_metrics
  | measure :: rest =>
      match py_get measure "name" (JStr "") with
      | Raise e => Raise e
      | Ok name =>
          match py_get measure "expression" (JStr "") with
          | Raise e => Raise e
          | Ok expression =>
              match _format_expression expression with
              | Raise e => Raise e
              | Ok formatted_expression =>
                  if truthy name && nonempty formatted_expression then
                    simplify_measures rest
                      (simplified_metrics ++
                         [{| name := name;
                             expression := formatted_expression |}])
                  else simplify_measures rest simplified_metrics
              end
          end
      end
  end.

(** What [open] followed by [json.load] came to. *)
Inductive load_outcome :=
  | NoSuchFile
  | NotJSON (msg : string)
  | Loaded (data : json).

(** The [try] block of [read_metrics_to_simple_json]. *)
Definition read_body (loaded : load_outcome) : result (list metric) :=
  match loaded with
  | NoSuchFile => Raise (Exn FileNotFoundError "[Errno 2] No such file or directory")
  | NotJSON msg => Raise (Exn JSONDecodeError msg)
  | Loaded data =>
      match py_get data "measures" (JList []) with
      | Raise e => Raise e
      | Ok measures =>
          match py_iter measures with
          | Raise e => Raise e
          | Ok items => simplify_measures items []
          end
      end
  end.

(** [read_metrics_to_simple_json(file_path)], with its three handlers. *)
Definition read_metrics_to_simple_json (file_path : string)
           (loaded : load_outcome) : result (list metric) :=
  match read_body loaded with
  | Ok simplified_metrics => Ok simplified_metrics
  | Raise e =>
      match exn_class e with
      | FileNotFoundError =>
          Raise (Exn FileNotFoundError
                     ("Metrics file not found: " +:+ file_path))
      | JSONDecodeError =>
          Raise (Exn ValueError
                     ("Invalid JSON format in " +:+ file_path +:+ ": "
                      +:+ exn_str e))
      | _ =>
          Raise (Exn Exception
                     ("Error reading metrics file: " +:+ exn_str e))
      end
  end.

End Reader.

(** ** The clock, the output folder and the translator *)

(** A reading of [datetime.now()]. *)
Record datetime := {
  year : nat; month : nat; day : nat;
  hour : nat; minute : nat; second : nat; microsecond : nat
}.

Definition pad2 (n : nat) : string := zfill 2 (str_of_nat n).
Definition pad4 (n : nat) : string := zfill 4 (str_of_nat n).

(** [strftime("%Y%m%d_%H%M%S")]. *)
Definition strftime_compact (t : datetime) : string :=
  pad4 (year t) +:+ pad2 (month t) +:+ pad2 (day t) +:+ "_"
  +:+ pad2 (hour t) +:+ pad2 (minute t) +:+ pad2 (second t).

(** [strftime("%Y-%m-%d %H:%M:%S")]. *)
Definition strftime_iso (t : datetime) : string :=
  pad4 (year t) +:+ "-" +:+ pad2 (month t) +:+ "-" +:+ pad2 (day t) +:+ " "
  +:+ pad2 (hour t) +:+ ":" +:+ pad2 (minute t) +:+ ":" +:+ pad2 (second t).

(** The mutable surroundings of a run: the directories that exist, the
    stored text of each file by path, and how many times the clock and the
    translation service have been asked so far. *)
Record world := {
  dirs : gset string;
  files : gmap string string;
  now_calls : nat;
  llm_calls : nat
}.

(** What a run does not control: the successive readings of the clock, the
    answer of the translation service to its [k]-th request, and
    [json.dumps] on a batch. *)
Record env := {
  clock : nat -> datetime;
  chain_invoke : nat -> string -> result string;
  json_dumps : list metric -> string
}.

(** A computation over the world that may raise. *)
Definition M (A : Type) : Type := world -> result A * world.

Definition ret {A} (a : A) : M A := fun w => (Ok a, w).
Definition raise {A} (e : exn) : M A := fun w => (Raise e, w).
Definition bind {A B} (m : M A) (k : A -> M B) : M B :=
  fun w =>
    match m w with
    | (Ok a, w') => k a w'
    | (Raise e, w') => (Raise e, w')
    end.

Notation "'let*' x ':=' m 'in' k" := (bind m (fun x => k))
  (at level 10, x name, m at level 100, k at level 200).

(** [datetime.now()]. *)
Definition datetime_now (E : env) : M datetime :=
  fun w =>
    (Ok (clock E (now_calls w)),
     {| dirs := dirs w; files := files w;
        now_calls := S (now_calls w); llm_calls := llm_calls w |}).

(** [open(filepath, 'w')] inside [folder] and writing [text] to it: the
    folder must exist; an existing file of that name is replaced. *)
Definition write_file (folder filepath text : string) : M unit :=
  fun w =>
    if bool_decide (folder ∈ dirs w) then
      (Ok tt,
       {| dirs := dirs w; files := <[filepath := text]> (files w);
          now_calls := now_calls w; llm_calls := llm_calls w |})
    else
      (Raise (Exn FileNotFoundError
                  ("[Errno 2] No such file or directory: '" +:+ filepath
                   +:+ "'")),
       w).

(** [file.write(text)] on a file that is open for writing. *)
Definition file_append (filepath text : string) : M unit :=
  fun w =>
    (Ok tt,
     {| dirs := dirs w;
        files := <[filepath := default EmptyString (files w !! filepath)
                               +:+ text]> (files w);
        now_calls := now_calls w; llm_calls := llm_calls w |}).

(** [open(filepath, 'r')] and reading all of it. *)
Definition read_file (filepath : string) : M string :=
  fun w =>
    match files w !! filepath with
    | Some text => (Ok text, w)
    | None =>
        (Raise (Exn FileNotFoundError
                    ("[Errno 2] No such file or directory: '" +:+ filepath
                     +:+ "'")),
         w)
    end.

(** [convert_dax_to_sparksql_uc_metric_view]: the prompt is fixed text around
    the payload; the chain is invoked once. *)
Definition convert_dax_to_sparksql_uc_metric_view (E : env)
           (dax_expressions : string) : M string :=
  fun w =>
    (chain_invoke E (llm_calls w) dax_expressions,
     {| dirs := dirs w; files := files w;
        now_calls := now_calls w; llm_calls := S (llm_calls w) |}).

(** ** Batch worker *)

(** The number of lines of [results.splitlines()] with ['name:'] in them. *)
Definition count_name_marks (lines : list string) : nat :=
  length (filter (fun line => contains "name:" line = true) lines).

Definition artifact_header (generated : datetime) (total_conversions : nat)
  : string :=
  "# DAX to SparkSQL UC Metric View Conversion Results" +:+ String LF ""
  +:+ "# Generated on: " +:+ strftime_iso generated +:+ String LF ""
  +:+ "# Total conversions: " +:+ str_of_nat total_conversions
  +:+ String LF ""
  +:+ String LF "" +:+ str_repeat "=" 80 +:+ String LF "" +:+ String LF "".

Definition artifact_name (timestamp : datetime) : string :=
  "converted_metrics_" +:+ strftime_compact timestamp +:+ ".txt".

Definition save_conversion_results (E : env) (results output_folder : string)
  : M string :=
  let* timestamp := datetime_now E in
  let filename := artifact_name timestamp in
  let filepath := os_path_join output_folder filename in
  (* [open] comes before the second clock reading *)
  let* _opened := write_file output_folder filepath "" in
  let* generated := datetime_now E in
  let total_conversions := count_name_marks (splitlines results) in
  let* _written := file_append filepath
        (artifact_header generated total_conversions +:+ results) in
  ret filepath.

Definition OUTPUT_FOLDER : string := "uc_converted_metrics".

(** [process_metrics_batch]: returns [(results, saved_file, len(metrics_data))]
    and has no handler of its own. *)
Definition process_metrics_batch (E : env) (batch_name : string)
           (metrics_data : list metric) (thread_id : nat)
  : M (string * string * nat) :=
  let dax_expressions := json_dumps E metrics_data in
  let* results := convert_dax_to_sparksql_uc_metric_view E dax_expressions in
  let* saved_file := save_conversion_results E results OUTPUT_FOLDER in
  ret (results, saved_file, length metrics_data).

(** ** Batch orchestrator *)

(** One entry of [all_results].  A success has no ['error'] key; a failure
    has [file = None] and [count = 0]. *)
Record outcome := {
  batch : string;
  batch_num : nat;
  file : option string;
  count : nat;
  error : option string
}.

(** ['error' in r]. *)
Definition failed (r : outcome) : bool :=
  match error r with Some _ => true | None => false end.

(** A submitted task: the arguments of [executor.submit]. *)
Record task := {
  task_num : nat;
  task_name : string;
  task_data : list metric
}.

(** A finished future with what [future.result()] gives or raises. *)
Record future := {
  submitted : task;
  returned : result (string * string * nat)
}.

(** The order in which pending items get their turn: each pick selects one
    of those still pending (modulo their number); when the picks run out,
    the rest follow in list order.  Every ordering of the items is the
    outcome of some picks. *)
Fixpoint pick_order {X} (picks : list nat) (pending : list X) : list X :=
  match picks with
  | [] => pending
  | k :: picks' =>
      let i := (k mod length pending)%nat in
      match pending !! i with
      | Some x => x :: pick_order picks' (delete i pending)
      | None => pending
      end
  end.

(** [enumerate(metric_batches, 1)] with the batch names. *)
Fixpoint submit_all (i : nat) (metric_batches : list (list metric))
  : list task :=
  match metric_batches with
  | [] => []
  | batch_data :: rest =>
      {| task_num := i;
         task_name := "Batch " +:+ str_of_nat i;
         task_data := batch_data |} :: submit_all (S i) rest
  end.

(** The workers take their turns one after the other: the translator has no
    state shared with the run, and the save step is under [file_lock]. *)
Fixpoint run_workers (E : env) (turns : list task) (w : world)
  : list future * world :=
  match turns with
  | [] => ([], w)
  | t :: rest =>
      let '(r, w1) :=
        process_metrics_batch E (task_name t) (task_data t) (task_num t) w in
      let '(fs, w2) := run_workers E rest w1 in
      ({| submitted := t; returned := r |} :: fs, w2)
  end.

(** The body of [for future in as_completed(future_to_batch)]: the entry
    appended to [all_results]. *)
Definition collect (f : future) : outcome :=
  let batch_num := task_num (submitted f) in
  let batch_name := task_name (submitted f) in
  match returned f with
  | Ok (results, saved_file, count) =>
      {| batch := batch_name; batch_num := batch_num;
         file := Some saved_file; count := count; error := None |}
  | Raise exc =>
      {| batch := batch_name; batch_num := batch_num;
         file := None; count := 0; error := Some (exn_str exc) |}
  end.

Definition by_batch_num (x y : outcome) : bool :=
  (batch_num x <=? batch_num y)%nat.

(** [process_batches_parallel(metric_batches, max_workers)].  [run_picks]
    is the order in which the workers get to run, [done_picks] the order in
    which [as_completed] hands the futures over; [max_workers] bounds how
    many run at once; the pool refuses a bound of zero.  The elapsed time is divided by
    [len(metric_batches)] before the list is sorted and returned. *)
Definition process_batches_parallel (E : env) (run_picks done_picks : list nat)
           (metric_batches : list (list metric)) (max_workers : nat)
  : M (list outcome) :=
  fun w =>
    if (max_workers =? 0)%nat then
      (Raise (Exn ValueError "max_workers must be greater than 0"), w)
    else
      let tasks := submit_all 1 metric_batches in
      let '(futures, w') := run_workers E (pick_order run_picks tasks) w in
      let all_results :=
        fold_left (fun all_results f => all_results ++ [collect f])
                  (pick_order done_picks futures) [] in
      if (length metric_batches =? 0)%nat then
        (Raise (Exn ZeroDivisionError "float division by zero"), w')
      else
        (Ok (py_sorted by_batch_num all_results), w').

(** ** Result combiner *)

(** A path that [glob] finds for [converted_metrics_*.txt] in the folder:
    the star stands for anything without a [/].  The folder name is taken
    to have no pattern characters of its own. *)
Definition glob_match (output_folder path : string) : bool :=
  match strip_prefix (os_path_join output_folder "converted_metrics_") path
  with
  | Some rest => endswith rest ".txt" && negb (contains "/" rest)
  | None => false
  end.

Definition glob (output_folder : string) : M (list string) :=
  fun w =>
    (Ok (filter (fun path => glob_match output_folder path = true)
                (map fst (map_to_list (files w)))),
     w).

(** The search for the first line of content: [content_start] stays [0]
    when no line qualifies. *)
Fixpoint find_content_start (j : nat) (lines : list string) : nat :=
  match lines with
  | [] => O
  | line :: rest =>
      if nonempty (strip line) && negb (startswith line "#")
         && negb (startswith line "=")
      then j
      else find_content_start (S j) rest
  end.

Definition batch_separator (i : nat) (file_path : string) : string :=
  String LF "" +:+ str_repeat "#" 60 +:+ String LF ""
  +:+ "# BATCH " +:+ str_of_nat i +:+ " - Source: "
  +:+ os_path_basename file_path +:+ String LF ""
  +:+ str_repeat "#" 60 +:+ String LF "" +:+ String LF "".

Definition combined_header (generated : datetime) (n_files : nat) : string :=
  "# COMBINED DAX to SparkSQL UC Metric View Conversion Results"
  +:+ String LF ""
  +:+ "# Generated on: " +:+ strftime_iso generated +:+ String LF ""
  +:+ "# Combined from " +:+ str_of_nat n_files +:+ " batch files"
  +:+ String LF ""
  +:+ String LF "" +:+ str_repeat "=" 100 +:+ String LF "" +:+ String LF "".

Definition combined_footer (total_conversions n_files : nat)
           (finished : datetime) : string :=
  String LF "" +:+ str_repeat "=" 100 +:+ String LF ""
  +:+ "# SUMMARY: Total " +:+ str_of_nat total_conversions
  +:+ " metrics converted from " +:+ str_of_nat n_files +:+ " batches"
  +:+ String LF ""
  +:+ "# Combined file generated: " +:+ strftime_iso finished
  +:+ String LF ""
  +:+ str_repeat "=" 100 +:+ String LF "".

(** The loop [for i, file_path in enumerate(result_files, 1)]; it returns
    [total_conversions]. *)
Fixpoint combine_loop (i : nat) (result_files : list string)
         (combined_filepath : string) (total_conversions : nat) : M nat :=
  match result_files with
  | [] => ret total_conversions
  | file_path :: rest =>
      let* _sep := file_append combined_filepath
                     (batch_separator i file_path) in
      let* stored := read_file file_path in
      let lines := readlines stored in
      let content_start := find_content_start 0 lines in
      let content := String.concat "" (drop content_start lines) in
      let* _body := file_append combined_filepath content in
      let batch_conversions := count_name_marks lines in
      let* _nl := file_append combined_filepath (String LF "") in
      combine_loop (S i) rest combined_filepath
                   (total_conversions + batch_conversions)
  end.

Definition combined_name (timestamp : datetime) : string :=
  "combined_all_metrics_" +:+ strftime_compact timestamp +:+ ".txt".

(** [combine_all_results(output_folder)]: [None] when nothing matches. *)
Definition combine_all_results (E : env) (output_folder : string)
  : M (option string) :=
  let* matches := glob output_folder in
  let result_files := py_sorted String.leb matches in
  match result_files with
  | [] => ret None
  | _ :: _ =>
      let* timestamp := datetime_now E in
      let combined_filepath :=
        os_path_join output_folder (combined_name timestamp) in
      let* _opened := write_file output_folder combined_filepath "" in
      let* generated := datetime_now E in
      let* _head := file_append combined_filepath
                      (combined_header generated (length result_files)) in
      let* total_conversions :=
        combine_loop 1 result_files combined_filepath 0 in
      let* finished := datetime_now E in
      let* _foot := file_append combined_filepath
                      (combined_footer total_conversions
                                       (length result_files) finished) in
      ret (Some combined_filepath)
  end.

(** ** Vocabulary of the statements *)

Fixpoint all_chars (P : ascii -> bool) (s : string) : bool :=
  match s with
  | EmptyString => true
  | String c r => P c && all_chars P r
  end.

Definition first_char (s : string) : option ascii :=
  match s with
  | EmptyString => None
  | String c _ => Some c
  end.

Fixpoint last_char (s : string) : option ascii :=
  match s with
  | EmptyString => None
  | String c r => match last_char r with Some d => Some d | None => Some c end
  end.

Definition not_space (o : option ascii) : Prop :=
  match o with
  | None => True
  | Some c => isspace c = false
  end.

(** [t] is [s] trimmed: [s] is [t] between two runs of whitespace, and [t]
    neither starts nor ends with whitespace. *)
Definition trims_to (s t : string) : Prop :=
  exists pre post,
    s = pre +:+ t +:+ post
    /\ all_chars isspace pre = true
    /\ all_chars isspace post = true
    /\ not_space (first_char t)
    /\ not_space (last_char t).

(** The future [f] holds what its worker gave in the world in which it got
    to run. *)
Definition ran (E : env) (f : future) : Prop :=
  exists w,
    returned f
    = fst (process_metrics_batch E (task_name (submitted f))
             (task_data (submitted f)) (task_num (submitted f)) w).

Definition by_task_num (x y : task) : bool :=
  (task_num x <=? task_num y)%nat.

(** ** Sample surroundings *)

Definition total_orders : metric :=
  {| name := JStr "Total Orders";
     expression := "SUM('FactSales'[OrderCount])" |}.

Definition total_amount : metric :=
  {| name := JStr "Total Amount";
     expression := "SUM('FactSales'[Amount])" |}.

(** The output folder exists and is empty. *)
Definition fresh_world : world :=
  {| dirs := {[ OUTPUT_FOLDER ]}; files := ∅; now_calls := 0; llm_calls := 0 |}.


(** A clock that advances one second per reading, from 2024-01-02
    03:04:00. *)
Definition ticking (n : nat) : datetime :=
  {| year := 2024; month := 1; day := 2;
     hour := 3; minute := 4; second := n; microsecond := 0 |}.

(** A clock that advances one microsecond per reading, within one second. *)
Definition within_a_second (n : nat) : datetime :=
  {| year := 2024; month := 1; day := 2;
     hour := 3; minute := 4; second := 5; microsecond := n |}.

Definition dumps_names (batch : list metric) : string :=
  "[" +:+ String.concat ", " (expression <$> batch) +:+ "]".

(** A translator that answers every request with one measure. *)
Definition one_measure (k : nat) (payload : string) : result string :=
  Ok ("- name: measure_" +:+ str_of_nat k +:+ String LF ""
      +:+ "  expr: SUM(x)").

(** A translator that answers in prose, without any measure record. *)
Definition prose_only (k : nat) (payload : string) : result string :=
  Ok "The expressions could not be converted.".

(** A translator that cannot be reached. *)
Definition unreachable (k : nat) (payload : string) : result string :=
  Raise (Exn Exception "Connection refused").

Definition env_ok : env :=
  {| clock := ticking; chain_invoke := one_measure;
     json_dumps := dumps_names |}.

Definition env_prose : env :=
  {| clock := ticking; chain_invoke := prose_only;
     json_dumps := dumps_names |}.

Definition env_down : env :=
  {| clock := ticking; chain_invoke := unreachable;
     json_dumps := dumps_names |}.

Definition env_fast : env :=
  {| clock := within_a_second; chain_invoke := one_measure;
     json_dumps := dumps_names |}.

(** The output folder holds nothing the combiner looks for, only a note and
    an earlier combined file. *)
Definition stale_world : world :=
  {| dirs := {[ OUTPUT_FOLDER ]};
     files :=
       {[ "uc_converted_metrics/notes.txt" := "keep";
          "uc_converted_metrics/combined_all_metrics_20240101_000000.txt"
            := "# COMBINED" ]};
     now_calls := 0; llm_calls := 0 |}.

(** The artifacts of the folder as [sorted(glob.glob(pattern))] lists
    them. *)
Definition result_files_of (output_folder : string) (w : world)
  : list string :=
  py_sorted String.leb
    (filter (fun path => glob_match output_folder path = true)
            (map fst (map_to_list (files w)))).

(** The lines of the stored file [path] that have ['name:'] in them, as the
    combiner counts them. *)
Definition marks_in (w : world) (path : string) : nat :=
  count_name_marks (readlines (default EmptyString (files w !! path))).


(** ** Vocabulary of the run as a whole *)

(** The characters of a time stamp or of a number: digits, [-], [:], the
    space and [_]. *)
Definition stamp_char (c : ascii) : bool :=
  let n := nat_of_ascii c in
  ((48 <=? n) && (n <=? 57) || (n =? 45) || (n =? 58) || (n =? 32)
   || (n =? 95))%nat.

(** [c] is not the character [c0]. *)
Definition differs (c0 : ascii) (c : ascii) : bool := negb (Ascii.eqb c c0).

(** The path under which the [j]-th save after [w] stores its artifact. *)
Definition saved_path (E : env) (w : world) (j : nat) : string :=
  os_path_join OUTPUT_FOLDER (artifact_name (clock E (now_calls w + 2 * j))).

(** Writing one file into the stored files. *)
Definition store (m : gmap string string) (a : string * string)
  : gmap string string :=
  <[a.1 := a.2]> m.

(** ** Vocabulary of the reader and of the combiner *)

(** The name under which a measure of the file is listed: ['']
    when the key is missing. *)
Definition measure_name (measure : json) : json :=
  match measure with
  | JDict pairs => default (JStr "") (dict_lookup pairs "name")
  | _ => JNull
  end.

(** A record that the reader may return: a truthy name and a non-empty
    expression. *)
Definition complete (m : metric) : Prop :=
  truthy (name m) = true /\ expression m <> EmptyString.

(** The expression of a measure of the file: [''] when the key is
    missing. *)
Definition measure_expression (measure : json) : json :=
  match measure with
  | JDict pairs => default (JStr "") (dict_lookup pairs "expression")
  | _ => JNull
  end.

Definition attribute_or_type (e : exn) : Prop :=
  exn_class e = AttributeError \/ exn_class e = TypeError.

(** Text without whitespace at either end. *)
Definition trimmed (t : string) : Prop :=
  not_space (first_char t) /\ not_space (last_char t).


(** ** The entry point *)

(** The configuration of the entry point. *)
Definition BATCH_SIZE : Z := 5.

Definition MAX_WORKERS : nat := 1.

(** What the entry point prints in its summary, and the combined file. *)
Record summary := {
  total_metrics : nat;
  successful_batches : list outcome;
  failed_batches : list outcome;
  combined_file : option string
}.

(** A result that does not touch the world. *)
Definition lift {A} (r : result A) : M A := fun w => (r, w).

(** The block under [if __name__ == '__main__']: read the metrics, split
    them, run the batches, sum up, and combine when a batch succeeded.
    [loaded] is what reading ["aas_metrics/metrics.json"] came to. *)
Definition main (E : env) (py_str : json -> string) (loaded : load_outcome)
           (run_picks done_picks : list nat) : M summary :=
  let* all_metrics :=
    lift (read_metrics_to_simple_json py_str "aas_metrics/metrics.json"
                                      loaded) in
  let* metric_batches := lift (create_batches all_metrics BATCH_SIZE) in
  let* all_results :=
    process_batches_parallel E run_picks done_picks metric_batches
                             MAX_WORKERS in
  let successful_batches := filter (fun r => failed r = false) all_results in
  let failed_batches := filter (fun r => failed r = true) all_results in
  let total_metrics := sum_list (count <$> successful_batches) in
  match successful_batches with
  | [] =>
      ret {| total_metrics := total_metrics;
             successful_batches := successful_batches;
             failed_batches := failed_batches;
             combined_file := None |}
  | _ :: _ =>
      let* combined_file := combine_all_results E OUTPUT_FOLDER in
      ret {| total_metrics := total_metrics;
             successful_batches := successful_batches;
             failed_batches := failed_batches;
             combined_file := combined_file |}
  end.

(** ** More sample surroundings, and numbers read back *)

(** The output folder with two artifacts of an earlier run and a note. *)
Definition harvest_world : world :=
  {| dirs := {[ OUTPUT_FOLDER ]};
     files :=
       {[ "uc_converted_metrics/converted_metrics_20240102_030400.txt"
            := "# Total conversions: 2" +:+ String LF ""
               +:+ "- name: Total Orders" +:+ String LF ""
               +:+ "  expr: SUM(OrderCount)" +:+ String LF ""
               +:+ "- name: Total Amount" +:+ String LF ""
               +:+ "  expr: SUM(Amount)" +:+ String LF "";
          "uc_converted_metrics/converted_metrics_20240102_030402.txt"
            := "- name: Average Price" +:+ String LF ""
               +:+ "  expr: SUM(Revenue) / NULLIF(SUM(Quantity), 0)";
          "uc_converted_metrics/notes.txt" := "name: not an artifact" ]};
     now_calls := 0; llm_calls := 0 |}.

(** The number that a string of decimal digits writes. *)
Definition digit_value (c : ascii) : nat := (nat_of_ascii c - 48)%nat.

Fixpoint number_from (value : nat) (s : string) : nat :=
  match s with
  | EmptyString => value
  | String c r => number_from (10 * value + digit_value c) r
  end.

(** A reading of the clock whose fields fit the widths of the stamp: four
    digits of year, two of everything else. *)
Definition fits_stamp (t : datetime) : Prop :=
  (year t < 10 ^ 4 /\ month t < 10 ^ 2 /\ day t < 10 ^ 2
   /\ hour t < 10 ^ 2 /\ minute t < 10 ^ 2 /\ second t < 10 ^ 2)%nat.

(** A character that is no line boundary other than [\n]. *)
Definition only_LF (c : ascii) : bool :=
  negb (is_linebreak c) || Ascii.eqb c LF.

(** Two readings of the same line: without its [\n], and with it or as the
    last line without one. *)
Definition same_line (bare kept : string) : Prop :=
  kept = bare \/ kept = bare +:+ String LF "".

(** The path that a finished future reports, if its worker succeeded. *)
Definition reported (f : future) : option string :=
  match returned f with
  | Ok (_, saved_file, _) => Some saved_file
  | Raise _ => None
  end.

(* ===================================================================== *)
(** * Part II: properties                                                 *)
(* ===================================================================== *)

(** ** Python primitives *)

Lemma fold_left_append_map {A B} (f : A -> B) (l : list A) (acc : list B) :
  fold_left (fun bs i => bs ++ [f i]) l acc = acc ++ map f l.
Proof.
  revert acc. induction l as [|x l IH]; intros acc; simpl.
  - by rewrite app_nil_r.
  - rewrite IH. by rewrite <- app_assoc.
Qed.

Lemma range_len_up (n b : Z) :
  0 <= n -> 0 < b -> range_len 0 n b = (n + b - 1) / b.
Proof.
  intros Hn Hb. unfold range_len.
  destruct (Z.ltb_spec 0 b); [|lia].
  destruct (Z.ltb_spec 0 n).
  - replace (n - 0 - 1) with (n - 1) by lia.
    replace (n + b - 1) with ((n - 1) + 1 * b) by lia.
    rewrite Z.div_add by lia. lia.
  - assert (n = 0) by lia; subst n.
    symmetry. apply Z.div_small. lia.
Qed.

Lemma range_len_down (n b : Z) : 0 <= n -> b < 0 -> range_len 0 n b = 0.
Proof.
  intros Hn Hb. unfold range_len.
  destruct (Z.ltb_spec 0 b); [lia|].
  destruct (Z.ltb_spec n 0); [lia|done].
Qed.

Lemma py_slice_chunk {A} (l : list A) (k b : nat) :
  (0 < b)%nat ->
  py_slice l (Z.of_nat (k * b)) (Z.of_nat (k * b) + Z.of_nat b)
  = take b (drop (k * b) l).
Proof.
  intros Hb. unfold py_slice, clamp_index.
  set (n := Z.of_nat (length l)).
  destruct (Z.ltb_spec (Z.of_nat (k * b)) 0); [lia|].
  destruct (Z.ltb_spec (Z.of_nat (k * b) + Z.of_nat b) 0); [lia|].
  destruct (Z.le_gt_cases n (Z.of_nat (k * b))) as [Hge|Hlt].
  - rewrite !drop_ge by lia. by rewrite !take_nil.
  - rewrite (Z.min_l (Z.of_nat (k * b)) n) by lia.
    rewrite Nat2Z.id.
    destruct (Z.le_gt_cases (Z.of_nat (k * b) + Z.of_nat b) n).
    + rewrite Z.min_l by lia. f_equal. lia.
    + rewrite Z.min_r by lia.
      rewrite !take_ge; [done| |]; rewrite length_drop; lia.
Qed.

(** ** Batch splitter *)

Lemma concat_chunks {A} (b : nat) (l : list A) (m : nat) :
  concat (map (chunk b l) (seq 0 m)) = take (m * b) l.
Proof.
  induction m as [|m IH].
  - by rewrite take_0.
  - rewrite seq_S, map_app, concat_app, IH. simpl.
    rewrite app_nil_r. unfold chunk.
    rewrite take_take_drop. f_equal. lia.
Qed.

Lemma create_batches_chunks {A} (l : list A) (b : Z) :
  0 < b ->
  create_batches l b
  = Ok (map (chunk (Z.to_nat b) l)
            (seq 0 (Z.to_nat ((Z.of_nat (length l) + b - 1) / b)))).
Proof.
  intros Hb. unfold create_batches, py_range.
  destruct (Z.eqb_spec b 0); [lia|].
  rewrite range_len_up by lia.
  rewrite fold_left_append_map. simpl. f_equal.
  rewrite map_map. apply map_ext. intros k.
  replace (0 + Z.of_nat k * b) with (Z.of_nat (k * Z.to_nat b)) by lia.
  replace (Z.of_nat (k * Z.to_nat b) + b)
    with (Z.of_nat (k * Z.to_nat b) + Z.of_nat (Z.to_nat b)) by lia.
  apply py_slice_chunk. lia.
Qed.

(** C1: for a positive batch size [b] and any list of [n] units,
    [create_batches] returns [ceil(n / b)] batches; batch [k] is the
    contiguous run of the input that starts at [k * b]; every batch but the
    last has length [b], the last has length [n mod b] (or [b] when [b]
    divides [n]); and the batches concatenated in order are the input. *)
Theorem create_batches_partition {A} (units : list A) (b : Z) :
  0 < b ->
  exists batches,
    create_batches units b = Ok batches
    /\ Z.of_nat (length batches) = (Z.of_nat (length units) + b - 1) / b
    /\ concat batches = units
    /\ (forall (k : nat) batch, batches !! k = Some batch ->
          batch = take (Z.to_nat b) (drop (k * Z.to_nat b) units))
    /\ (forall (k : nat) batch, batches !! k = Some batch ->
          (S k < length batches)%nat -> Z.of_nat (length batch) = b)
    /\ (forall batch, last batches = Some batch ->
          Z.of_nat (length batch)
          = if Z.of_nat (length units) mod b =? 0 then b
            else Z.of_nat (length units) mod b).
Proof.
  intros Hb.
  set (n := Z.of_nat (length units)).
  set (m := Z.to_nat ((n + b - 1) / b)).
  assert (Hn : 0 <= n) by lia.
  assert (Hq : 0 <= (n + b - 1) / b) by (apply Z.div_pos; lia).
  assert (Hlo : b * ((n + b - 1) / b) <= n + b - 1)
    by (apply Z.mul_div_le; lia).
  assert (Hhi : n + b - 1 < b * ((n + b - 1) / b) + b).
  { pose proof (Z.mod_pos_bound (n + b - 1) b Hb).
    pose proof (Z.div_mod (n + b - 1) b). lia. }
  exists (map (chunk (Z.to_nat b) units) (seq 0 m)).
  assert (Hlook : forall (k : nat) batch,
             map (chunk (Z.to_nat b) units) (seq 0 m) !! k = Some batch ->
             (k < m)%nat /\ batch = chunk (Z.to_nat b) units k).
  { intros k batch Hk. rewrite list_lookup_fmap in Hk.
    destruct (seq 0 m !! k) as [j|] eqn:Hj; [|done].
    apply lookup_seq in Hj as [-> ?]. simpl in Hk. by inversion Hk. }
  split; [by apply create_batches_chunks|].
  split; [rewrite length_map, length_seq; subst m; lia|].
  split.
  { rewrite concat_chunks. apply take_ge. subst m. nia. }
  split; [intros k batch Hk; by apply Hlook in Hk as [_ ->]|].
  split.
  - intros k batch Hk Hlt. apply Hlook in Hk as [_ ->].
    rewrite length_map, length_seq in Hlt.
    unfold chunk. rewrite length_take, length_drop. subst m. nia.
  - intros batch Hlast. rewrite last_lookup in Hlast.
    rewrite length_map, length_seq in Hlast.
    pose proof (Hlook _ _ Hlast) as [Hk ->].
    unfold chunk. rewrite length_take, length_drop.
    pose proof (Z.mod_pos_bound n b Hb) as Hr.
    pose proof (Z.div_mod n b ltac:(lia)) as Hdm.
    destruct (Z.eqb_spec (n mod b) 0) as [Hz|Hnz].
    + assert ((n + b - 1) / b = n / b).
      { symmetry. apply (Z.div_unique_pos _ _ _ (b - 1)); lia. }
      subst m. nia.
    + assert ((n + b - 1) / b = n / b + 1).
      { symmetry. apply (Z.div_unique_pos _ _ _ (n mod b - 1)); lia. }
      subst m. nia.
Qed.

Lemma create_batches_partition_witness :
  exists batches,
    create_batches [1; 2; 3; 4; 5; 6; 7] 3 = Ok batches
    /\ Z.of_nat (length batches) = 3
    /\ concat batches = [1; 2; 3; 4; 5; 6; 7]
    /\ batches = [[1; 2; 3]; [4; 5; 6]; [7]].
Proof.
  destruct (create_batches_partition [1; 2; 3; 4; 5; 6; 7] 3 ltac:(lia))
    as (batches & Hrun & Hlen & Hcat & _).
  exists batches. repeat split; try done.
  vm_compute in Hrun. by inversion Hrun.
Defined.

(** C2, as stated, fails: with a negative batch size and a non-empty list
    nothing is raised; the loop body never runs and the empty list of
    batches is returned. *)
Lemma create_batches_negative_size_no_error :
  create_batches [1; 2; 3] (-1) = Ok []
  /\ ~ (exists e, create_batches [1; 2; 3] (-1) = Raise e).
Proof.
  split; [reflexivity|]. intros [e He]. vm_compute in He. discriminate.
Qed.

(** C2, amended: for every input list, a batch size of zero makes
    [create_batches] raise the [ValueError] of [range] with no batch
    produced, and a negative batch size raises nothing and returns the empty
    list of batches. *)
Theorem create_batches_nonpositive {A} (units : list A) (b : Z) :
  b <= 0 ->
  create_batches units b
  = if b =? 0
    then Raise (Exn ValueError "range() arg 3 must not be zero")
    else Ok [].
Proof.
  intros Hb. unfold create_batches, py_range.
  destruct (Z.eqb_spec b 0) as [->|Hne]; [done|].
  rewrite range_len_down by lia. done.
Qed.

Lemma create_batches_nonpositive_witness :
  create_batches [1; 2; 3] 0
  = Raise (Exn ValueError "range() arg 3 must not be zero")
  /\ create_batches [1; 2; 3] (-5) = Ok [].
Proof.
  split.
  - apply (create_batches_nonpositive [1; 2; 3] 0). lia.
  - apply (create_batches_nonpositive [1; 2; 3] (-5)). lia.
Defined.

(** ** Trimming *)

Lemma append_cons (c : ascii) (a b : string) :
  String c a +:+ b = String c (a +:+ b).
Proof. reflexivity. Qed.

Lemma append_nil_l (a : string) : EmptyString +:+ a = a.
Proof. reflexivity. Qed.

Lemma append_nil_r (a : string) : a +:+ EmptyString = a.
Proof. induction a as [|x a IH]; [done|]. by rewrite append_cons, IH. Qed.

Lemma append_assoc (a b c : string) : (a +:+ b) +:+ c = a +:+ (b +:+ c).
Proof.
  induction a as [|x a IH]; [done|]. by rewrite !append_cons, IH.
Qed.

Lemma lstrip_split (s : string) :
  exists pre,
    s = pre +:+ lstrip s
    /\ all_chars isspace pre = true
    /\ not_space (first_char (lstrip s)).
Proof.
  induction s as [|c r IH]; simpl.
  - by exists EmptyString.
  - destruct (isspace c) eqn:Hc.
    + destruct IH as (pre & Hr & Hpre & Hfirst).
      exists (String c pre). rewrite append_cons. simpl.
      rewrite Hc, Hpre. repeat split; [|done]. by f_equal.
    + exists EmptyString. by repeat split.
Qed.

Lemma rstrip_split (s : string) :
  exists post,
    s = rstrip s +:+ post
    /\ all_chars isspace post = true
    /\ not_space (last_char (rstrip s)).
Proof.
  induction s as [|c r IH]; simpl.
  - by exists EmptyString.
  - destruct IH as (post & Hr & Hpost & Hlast).
    destruct (isspace c) eqn:Hc; simpl.
    + destruct (rstrip r) as [|d r'] eqn:Hrs; simpl.
      * exists (String c r). rewrite append_nil_l in Hr. subst r.
        rewrite append_nil_l. simpl. by rewrite Hc, Hpost.
      * exists post. rewrite append_cons.
        repeat split; [by f_equal|done|].
        simpl in Hlast. by destruct (last_char r').
    + exists post. rewrite append_cons.
      repeat split; [by f_equal|done|].
      destruct (last_char (rstrip r)); [done|]. by simpl.
Qed.

Lemma rstrip_first (s : string) :
  not_space (first_char s) -> not_space (first_char (rstrip s)).
Proof.
  destruct s as [|c r]; [done|]. simpl. intros Hc. by rewrite Hc.
Qed.

Lemma strip_trims (s : string) : trims_to s (strip s).
Proof.
  unfold strip.
  destruct (lstrip_split s) as (pre & Hs & Hpre & Hfirst).
  destruct (rstrip_split (lstrip s)) as (post & Hl & Hpost & Hlast).
  exists pre, post. repeat split; try done.
  - by rewrite <- Hl.
  - by apply rstrip_first.
Qed.

(** ** Metric reader *)

Lemma nonempty_true (s : string) : nonempty s = true <-> s <> EmptyString.
Proof. destruct s; simpl; split; congruence. Qed.

Lemma clean_parts_fragments (frags : list string) :
  clean_parts (JStr <$> frags)
  = Ok (strip <$> filter (fun f => strip f <> EmptyString) frags).
Proof.
  induction frags as [|f frags IH]; [done|].
  rewrite fmap_cons. simpl. rewrite IH.
  destruct (nonempty (strip f)) eqn:Hf.
  - rewrite filter_cons_True by by apply nonempty_true. done.
  - rewrite filter_cons_False; [done|].
    intros Hne. apply nonempty_true in Hne. congruence.
Qed.

(** C9: an expression given as a list of string fragments is formatted by
    dropping the fragments that are empty once trimmed, trimming the others
    (whitespace removed at both ends, nothing else), and joining them with
    one space; the fragments of the example give
    ["SUM(Revenue) / SUM(Quantity)"]. *)
Theorem format_expression_fragments (py_str : json -> string)
        (frags : list string) :
  _format_expression py_str (JList (JStr <$> frags))
  = Ok (String.concat " "
          (strip <$> filter (fun f => strip f <> EmptyString) frags))
  /\ (forall f, trims_to f (strip f))
  /\ _format_expression py_str
       (JList [JStr "SUM(Revenue)"; JStr ""; JStr "  / SUM(Quantity) "])
     = Ok "SUM(Revenue) / SUM(Quantity)".
Proof.
  split; [|split].
  - simpl. by rewrite clean_parts_fragments.
  - apply strip_trims.
  - reflexivity.
Qed.

Lemma simplify_measures_length (py_str : json -> string)
      (measures : list json) (acc out : list metric) :
  simplify_measures py_str measures acc = Ok out ->
  (length out <= length acc + length measures)%nat.
Proof.
  revert acc. induction measures as [|m measures IH]; intros acc; simpl.
  - intros [= <-]. lia.
  - destruct (py_get m "name" (JStr "")) as [nm|]; [|done].
    destruct (py_get m "expression" (JStr "")) as [ex|]; [|done].
    destruct (_format_expression py_str ex) as [fe|]; [|done].
    destruct (truthy nm && nonempty fe); intros H; apply IH in H.
    + rewrite length_app in H. simpl in H. lia.
    + lia.
Qed.

(** ** Sorting and orderings *)

Lemma insert_by_Permutation {A} (le : A -> A -> bool) (x : A) (l : list A) :
  insert_by le x l ≡ₚ x :: l.
Proof.
  induction l as [|y l IH]; simpl; [done|].
  destruct (le x y); [done|].
  rewrite IH. apply perm_swap.
Qed.

Lemma py_sorted_Permutation {A} (le : A -> A -> bool) (l : list A) :
  py_sorted le l ≡ₚ l.
Proof.
  induction l as [|x l IH]; simpl; [done|].
  unfold py_sorted in *. simpl.
  by rewrite insert_by_Permutation, IH.
Qed.

Section SortByKey.

Context {A : Type} (key : A -> nat).

Let le (x y : A) : bool := (key x <=? key y)%nat.
Let R (x y : A) : Prop := (key x <= key y)%nat.

Lemma insert_by_sorted (x : A) (l : list A) :
  StronglySorted R l -> StronglySorted R (insert_by le x l).
Proof.
  induction 1 as [|y l Hl IH Hy]; simpl.
  - repeat constructor.
  - unfold le at 1. destruct (Nat.leb_spec (key x) (key y)) as [Hxy|Hxy].
    + constructor; [by constructor|].
      constructor; [done|].
      eapply Forall_impl; [exact Hy|]. unfold R. simpl. lia.
    + constructor; [done|].
      rewrite insert_by_Permutation. constructor; [|done].
      unfold R. lia.
Qed.

Lemma py_sorted_sorted (l : list A) : StronglySorted R (py_sorted le l).
Proof.
  induction l as [|x l IH]; [constructor|].
  unfold py_sorted in *. simpl. by apply insert_by_sorted.
Qed.

Lemma sorted_Permutation_eq (l1 l2 : list A) :
  StronglySorted R l1 -> StronglySorted R l2 ->
  NoDup (key <$> l1) -> l1 ≡ₚ l2 -> l1 = l2.
Proof.
  intros H1. revert l2.
  induction H1 as [|x l1 Hl1 IH Hx]; intros l2 H2 Hnd Hperm.
  - by apply Permutation_nil in Hperm.
  - destruct H2 as [|y l2 Hl2 Hy].
    + symmetry in Hperm. by apply Permutation_nil in Hperm.
    + rewrite fmap_cons in Hnd. apply NoDup_cons in Hnd as [Hfresh Hnd].
      assert (x = y) as <-.
      { assert (Hxin : x ∈ y :: l2) by (rewrite <- Hperm; left).
        assert (Hyin : y ∈ x :: l1) by (rewrite Hperm; left).
        apply elem_of_cons in Hxin as [?|Hxin]; [done|].
        apply elem_of_cons in Hyin as [?|Hyin]; [done|].
        rewrite Forall_forall in Hx, Hy.
        specialize (Hx _ Hyin). specialize (Hy _ Hxin). unfold R in *.
        destruct Hfresh. replace (key x) with (key y) by lia.
        by apply list_elem_of_fmap_2. }
      f_equal. apply IH; [done|done|].
      by apply Permutation_cons_inv in Hperm.
Qed.

Lemma py_sorted_unique (l1 l2 : list A) :
  NoDup (key <$> l1) -> l1 ≡ₚ l2 -> py_sorted le l1 = py_sorted le l2.
Proof.
  intros Hnd Hperm.
  apply sorted_Permutation_eq; try apply py_sorted_sorted.
  - by rewrite py_sorted_Permutation.
  - by rewrite !py_sorted_Permutation.
Qed.

Lemma py_sorted_already (l : list A) :
  StronglySorted R l -> NoDup (key <$> l) -> py_sorted le l = l.
Proof.
  intros Hs Hnd. apply sorted_Permutation_eq; try done.
  - apply py_sorted_sorted.
  - by rewrite py_sorted_Permutation.
  - apply py_sorted_Permutation.
Qed.

End SortByKey.

Lemma py_sorted_fmap {A B} (f : A -> B) (leA : A -> A -> bool)
      (leB : B -> B -> bool) (l : list A) :
  (forall x y, leB (f x) (f y) = leA x y) ->
  py_sorted leB (f <$> l) = f <$> py_sorted leA l.
Proof.
  intros Hle. induction l as [|x l IH]; [done|].
  unfold py_sorted in *. rewrite fmap_cons. simpl. rewrite IH.
  generalize (foldr (insert_by leA) [] l). intros s.
  induction s as [|y s IHs]; [done|].
  rewrite fmap_cons. simpl. rewrite Hle.
  destruct (leA x y); [done|]. rewrite fmap_cons. by rewrite IHs.
Qed.

Lemma pick_order_Permutation {X} (picks : list nat) (pending : list X) :
  pick_order picks pending ≡ₚ pending.
Proof.
  revert pending. induction picks as [|k picks IH]; intros pending; [done|].
  simpl. destruct (pending !! _) as [x|] eqn:Hx; [|done].
  rewrite IH. symmetry. by apply delete_Permutation.
Qed.

(** Every ordering of the pending items is reached by some picks. *)
Lemma pick_order_complete {X} (pending order : list X) :
  pending ≡ₚ order -> exists picks, pick_order picks pending = order.
Proof.
  revert pending. induction order as [|x order IH]; intros pending Hperm.
  - apply Permutation_nil_r in Hperm as ->. by exists [].
  - assert (Hin : x ∈ pending) by (rewrite Hperm; left).
    apply list_elem_of_lookup in Hin as [i Hi].
    assert (Hlt : (i < length pending)%nat) by by eapply lookup_lt_Some.
    destruct (IH (delete i pending)) as [picks Hpicks].
    { apply (Permutation_cons_inv (a := x)).
      by rewrite <- delete_Permutation. }
    exists (i :: picks). simpl.
    rewrite Nat.mod_small by done. by rewrite Hi, Hpicks.
Qed.

Lemma pick_order_nil {X} (picks : list nat) : pick_order picks (@nil X) = [].
Proof. by destruct picks. Qed.

(** ** Batch orchestrator *)

Lemma submit_all_nums (i : nat) (batches : list (list metric)) :
  task_num <$> submit_all i batches = seq i (length batches).
Proof.
  revert i. induction batches as [|b batches IH]; intros i; [done|].
  simpl. by rewrite IH.
Qed.

Lemma submit_all_data (i : nat) (batches : list (list metric)) :
  task_data <$> submit_all i batches = batches.
Proof.
  revert i. induction batches as [|b batches IH]; intros i; [done|].
  simpl. by rewrite IH.
Qed.

Lemma submit_all_lookup (i k : nat) (batches : list (list metric)) t :
  submit_all i batches !! k = Some t ->
  task_num t = (i + k)%nat
  /\ task_name t = "Batch " +:+ str_of_nat (i + k)
  /\ batches !! k = Some (task_data t).
Proof.
  revert i k. induction batches as [|b batches IH]; intros i k; [done|].
  destruct k as [|k]; simpl.
  - intros [= <-]. simpl. by rewrite Nat.add_0_r.
  - intros Ht. apply IH in Ht. by rewrite <- Nat.add_succ_comm.
Qed.

Lemma submit_all_sorted (i : nat) (batches : list (list metric)) :
  StronglySorted (fun x y => (task_num x <= task_num y)%nat)
                 (submit_all i batches).
Proof.
  revert i. induction batches as [|b batches IH]; intros i; simpl.
  - constructor.
  - constructor; [apply IH|].
    apply Forall_forall. intros t Ht.
    apply list_elem_of_lookup in Ht as [k Hk].
    apply submit_all_lookup in Hk as [-> _]. simpl. lia.
Qed.

Lemma run_workers_submitted (E : env) (turns : list task) (w : world) :
  submitted <$> (run_workers E turns w).1 = turns.
Proof.
  revert w. induction turns as [|t turns IH]; intros w; [done|].
  simpl. destruct (process_metrics_batch _ _ _ _ _) as [r w1].
  specialize (IH w1). destruct (run_workers E turns w1) as [fs w2].
  simpl in *. by f_equal.
Qed.

Lemma run_workers_ran (E : env) (turns : list task) (w : world) :
  Forall (ran E) (run_workers E turns w).1.
Proof.
  revert w. induction turns as [|t turns IH]; intros w; simpl.
  - constructor.
  - destruct (process_metrics_batch _ _ _ _ _) as [r w1] eqn:Hr.
    specialize (IH w1). destruct (run_workers E turns w1) as [fs w2].
    simpl in *. constructor; [|done].
    exists w. simpl. by rewrite Hr.
Qed.

Lemma collect_batch_num (f : future) :
  batch_num (collect f) = task_num (submitted f).
Proof.
  unfold collect. by destruct (returned f) as [[[? ?] ?]|].
Qed.

Lemma collect_batch_nums (fs : list future) :
  batch_num <$> (collect <$> fs) = task_num <$> (submitted <$> fs).
Proof.
  induction fs as [|f fs IH]; [done|].
  rewrite !fmap_cons, collect_batch_num. by f_equal.
Qed.

(** What the orchestrator returns for a non-empty list of batches: the
    entries collected from the futures, one per submitted task, in the order
    of submission, whatever the two orders of the run. *)
Lemma process_batches_parallel_futures (E : env)
      (run_picks done_picks : list nat)
      (metric_batches : list (list metric)) (max_workers : nat) (w : world) :
  metric_batches <> [] -> (0 < max_workers)%nat ->
  exists futures w',
    process_batches_parallel E run_picks done_picks metric_batches
                             max_workers w
    = (Ok (collect <$> futures), w')
    /\ submitted <$> futures = submit_all 1 metric_batches
    /\ Forall (ran E) futures.
Proof.
  intros Hne Hmw. unfold process_batches_parallel.
  destruct (Nat.eqb_spec max_workers 0) as [|_]; [lia|].
  set (tasks := submit_all 1 metric_batches).
  pose proof (run_workers_submitted E (pick_order run_picks tasks) w) as Hsub.
  pose proof (run_workers_ran E (pick_order run_picks tasks) w) as Hran.
  destruct (run_workers E (pick_order run_picks tasks) w) as [F w'].
  simpl in Hsub, Hran.
  destruct (Nat.eqb_spec (length metric_batches) 0) as [Hz|_].
  { by destruct metric_batches. }
  rewrite fold_left_append_map. simpl.
  set (by_future := fun f g : future =>
                      by_task_num (submitted f) (submitted g)).
  assert (Hnodup : NoDup (task_num <$> tasks)).
  { subst tasks. rewrite submit_all_nums. apply NoDup_seq. }
  assert (HF : submitted <$> F ≡ₚ tasks).
  { rewrite Hsub. apply pick_order_Permutation. }
  exists (py_sorted by_future F), w'. split; [|split].
  - f_equal. f_equal.
    rewrite <- (py_sorted_fmap collect by_future by_batch_num).
    2:{ intros x y. unfold by_batch_num, by_future, by_task_num.
        by rewrite !collect_batch_num. }
    apply (py_sorted_unique batch_num).
    + rewrite pick_order_Permutation, collect_batch_nums. by rewrite HF.
    + by rewrite pick_order_Permutation.
  - rewrite <- (py_sorted_fmap submitted by_future by_task_num) by done.
    rewrite (py_sorted_unique task_num _ tasks).
    + apply (py_sorted_already task_num); [apply submit_all_sorted|done].
    + by rewrite HF.
    + done.
  - by rewrite py_sorted_Permutation.
Qed.

(** The entries come back one per batch, numbered in the order of the
    batches, for every non-empty list of batches and both orders of the
    run. *)
Lemma process_batches_parallel_ordered (E : env)
      (run_picks done_picks : list nat)
      (metric_batches : list (list metric)) (max_workers : nat) (w : world) :
  metric_batches <> [] -> (0 < max_workers)%nat ->
  exists all_results w',
    process_batches_parallel E run_picks done_picks metric_batches
                             max_workers w
    = (Ok all_results, w')
    /\ length all_results = length metric_batches
    /\ batch_num <$> all_results = seq 1 (length metric_batches).
Proof.
  intros Hne Hmw.
  destruct (process_batches_parallel_futures E run_picks done_picks
              metric_batches max_workers w Hne Hmw)
    as (futures & w' & Hrun & Hsub & _).
  exists (collect <$> futures), w'. split; [done|].
  assert (Hnums : batch_num <$> (collect <$> futures)
                  = seq 1 (length metric_batches)).
  { by rewrite collect_batch_nums, Hsub, submit_all_nums. }
  split; [|done].
  apply (f_equal length) in Hnums.
  by rewrite length_fmap, length_seq in Hnums.
Qed.

(** C3, at the empty list of batches: no list comes back.  After the pool
    has had nothing to do, the average time per batch divides by
    [len(metric_batches) = 0] and the call ends in [ZeroDivisionError],
    whatever the surroundings. *)
Theorem process_batches_parallel_no_batches (E : env)
        (run_picks done_picks : list nat) (w : world) :
  process_batches_parallel E run_picks done_picks [] 4 w
  = (Raise (Exn ZeroDivisionError "float division by zero"), w).
Proof.
  unfold process_batches_parallel. simpl.
  by rewrite pick_order_nil.
Qed.

Lemma process_metrics_batch_count (E : env) (batch_name : string)
      (metrics_data : list metric) (thread_id : nat) (w w' : world)
      results saved_file n :
  process_metrics_batch E batch_name metrics_data thread_id w
  = (Ok (results, saved_file, n), w') ->
  n = length metrics_data.
Proof.
  unfold process_metrics_batch, bind, ret,
    convert_dax_to_sparksql_uc_metric_view.
  destruct (chain_invoke E _ _) as [text|e]; [|done].
  destruct (save_conversion_results E text OUTPUT_FOLDER _) as [[p|e] w1];
    [|done].
  by intros [= _ _ <- _].
Qed.

Lemma collect_count (E : env) (f : future) :
  ran E f ->
  count (collect f)
  = if failed (collect f) then 0%nat
    else length (task_data (submitted f)).
Proof.
  intros [wi Hr]. unfold collect.
  destruct (process_metrics_batch E _ _ _ wi) as [r w1] eqn:Hw.
  simpl in Hr. rewrite Hr.
  destruct r as [[[results saved] n]|e]; simpl; [|done].
  by apply process_metrics_batch_count in Hw.
Qed.

(** C4, as stated, fails: a batch of one unit whose translator call raises
    comes back as an entry with [count = 0], so the counts add up to 0 while
    the input has 1 unit. *)
Lemma failed_batch_counts_nothing :
  exists all_results w',
    process_batches_parallel env_down [] [] [[total_orders]] 1 fresh_world
    = (Ok all_results, w')
    /\ sum_list (count <$> all_results) = 0%nat
    /\ length (concat [[total_orders]]) = 1%nat.
Proof. eexists _, _. split; [reflexivity|]. split; reflexivity. Qed.

(** C4, amended: for every run over a non-empty list of batches, the counts
    recorded in the entries add up to the number of units of the batches
    that succeeded (a failed batch is recorded with count 0); so the sum
    never exceeds the number of input units and equals it when no batch
    failed. *)
Theorem counts_sum_over_successes (E : env) (run_picks done_picks : list nat)
        (metric_batches : list (list metric)) (max_workers : nat)
        (w : world) :
  metric_batches <> [] -> (0 < max_workers)%nat ->
  exists all_results w',
    process_batches_parallel E run_picks done_picks metric_batches
                             max_workers w
    = (Ok all_results, w')
    /\ sum_list (count <$> all_results)
       = sum_list ((fun rb => if failed rb.1 then 0%nat else length rb.2)
                     <$> zip all_results metric_batches)
    /\ (sum_list (count <$> all_results) <= length (concat metric_batches))%nat
    /\ (Forall (fun r => failed r = false) all_results ->
        sum_list (count <$> all_results) = length (concat metric_batches)).
Proof.
  intros Hne Hmw.
  destruct (process_batches_parallel_futures E run_picks done_picks
              metric_batches max_workers w Hne Hmw)
    as (futures & w' & Hrun & Hsub & Hran).
  exists (collect <$> futures), w'. split; [done|].
  assert (Hdata : metric_batches = task_data <$> (submitted <$> futures)).
  { by rewrite Hsub, submit_all_data. }
  rewrite Hdata. clear Hrun Hsub Hdata Hne.
  induction Hran as [|f futures Hf Hran IH].
  - repeat split; done.
  - destruct IH as (IH1 & IH2 & IH3).
    rewrite !fmap_cons. cbn [zip zip_with concat sum_list fmap list_fmap fst snd].
    rewrite (collect_count E f Hf), length_app.
    change (list_fmap ?A ?B ?g ?l) with (g <$> l) in *.
    change (id ?n) with n.
    destruct (failed (collect f)) eqn:Hfail.
    + split; [lia|]. split; [lia|].
      intros Hall. apply Forall_cons in Hall as [Hall _]. congruence.
    + split; [lia|]. split; [lia|].
      intros Hall. apply Forall_cons in Hall as [_ Hall].
      specialize (IH3 Hall). lia.
Qed.

Lemma counts_sum_over_successes_witness :
  exists all_results w',
    process_batches_parallel env_ok [1%nat] []
      [[total_orders; total_amount]; [total_orders]] 4 fresh_world
    = (Ok all_results, w')
    /\ sum_list (count <$> all_results) = 3%nat.
Proof.
  destruct (counts_sum_over_successes env_ok [1%nat] []
              [[total_orders; total_amount]; [total_orders]] 4 fresh_world)
    as (all_results & w' & Hrun & _ & _ & Hall); [done|lia|].
  exists all_results, w'. split; [done|].
  vm_compute in Hrun. injection Hrun as <- _.
  rewrite Hall; [reflexivity|]. repeat constructor.
Defined.

(** ** Batch worker *)






(** C6, at two batches saved within one second: both workers succeed and
    each entry records the length of its batch, but the artifact name is
    built from the clock to the second, so both entries name the same file
    and the folder holds one artifact, that of the batch saved last. *)
Theorem same_second_same_artifact :
  exists path r1 r2 w',
    process_batches_parallel env_fast [] []
      [[total_orders]; [total_amount; total_orders]] 4 fresh_world
    = (Ok [r1; r2], w')
    /\ failed r1 = false /\ failed r2 = false
    /\ count r1 = 1%nat /\ count r2 = 2%nat
    /\ file r1 = Some path /\ file r2 = Some path
    /\ size (files w') = 1%nat
    /\ artifact_name (within_a_second 0) = artifact_name (within_a_second 2).
Proof.
  eexists _, _, _, _. split; [vm_compute; reflexivity|].
  repeat split; vm_compute; reflexivity.
Qed.

(** ** Result combiner *)

Lemma filter_none {A} (P : A -> Prop) `{!forall x, Decision (P x)}
      (l : list A) :
  Forall (fun x => ~ P x) l -> filter P l = [].
Proof.
  induction 1 as [|x l Hx _ IH]; [done|].
  by rewrite filter_cons_False.
Qed.

Lemma glob_nothing (output_folder : string) (w : world) :
  (forall path, glob_match output_folder path = true ->
                files w !! path = None) ->
  glob output_folder w = (Ok [], w).
Proof.
  intros Hnone. unfold glob. f_equal. f_equal.
  apply filter_none, Forall_forall. intros path Hin Hmatch.
  apply list_elem_of_fmap in Hin as ([p text] & -> & Hin).
  apply elem_of_map_to_list in Hin. simpl in Hmatch.
  rewrite (Hnone p Hmatch) in Hin. discriminate.
Qed.

(** C7: when no file of the folder matches [converted_metrics_*.txt],
    [combine_all_results] returns [None] and leaves the folder as it was: no
    combined file is written (and the clock is not even read). *)
Theorem combine_nothing_to_combine (E : env) (output_folder : string)
        (w : world) :
  (forall path, glob_match output_folder path = true ->
                files w !! path = None) ->
  combine_all_results E output_folder w = (Ok None, w).
Proof.
  intros Hnone. unfold combine_all_results, bind.
  by rewrite glob_nothing.
Qed.

Lemma combine_nothing_to_combine_witness :
  combine_all_results env_ok OUTPUT_FOLDER stale_world = (Ok None, stale_world).
Proof.
  apply combine_nothing_to_combine.
  intros path Hmatch. unfold stale_world. simpl.
  apply lookup_insert_None. split.
  - apply lookup_singleton_None. intros <-. vm_compute in Hmatch. done.
  - intros <-. vm_compute in Hmatch. done.
Defined.

(** C8, as stated, fails: one batch of one unit, the worker succeeds and
    records [count = 1], but the translator's text has no line with
    ['name:'] in it, and the combined file reports a total of 0. *)
Lemma combined_total_counts_marks_not_units :
  exists all_results w1 combined w2,
    process_batches_parallel env_prose [] [] [[total_orders]] 4 fresh_world
    = (Ok all_results, w1)
    /\ Forall (fun r => failed r = false) all_results
    /\ sum_list (count <$> all_results) = 1%nat
    /\ combine_all_results env_prose OUTPUT_FOLDER w1 = (Ok (Some combined), w2)
    /\ files w2 !! combined
       = Some (combined_header (ticking 3) 1
               +:+ batch_separator 1 "uc_converted_metrics/converted_metrics_20240102_030400.txt"
               +:+ "The expressions could not be converted." +:+ String LF ""
               +:+ combined_footer 0 1 (ticking 4)).
Proof.
  eexists _, _, _, _. split; [vm_compute; reflexivity|].
  split; [repeat constructor|].
  split; [reflexivity|].
  split; [vm_compute; reflexivity|].
  vm_compute. reflexivity.
Qed.

Lemma combine_loop_total (result_files : list string) :
  forall (i : nat) (combined_filepath old : string) (total : nat) (w : world),
    files w !! combined_filepath = Some old ->
    Forall (fun path => path <> combined_filepath
                        /\ is_Some (files w !! path)) result_files ->
    exists body w',
      combine_loop i result_files combined_filepath total w
      = (Ok (total + sum_list (marks_in w <$> result_files))%nat, w')
      /\ now_calls w' = now_calls w
      /\ files w' !! combined_filepath = Some (old +:+ body)
      /\ (forall path, path <> combined_filepath ->
                       files w' !! path = files w !! path).
Proof.
  induction result_files as [|file_path rest IH];
    intros i combined_filepath old total w Hold Hfiles.
  - exists EmptyString, w. simpl. unfold ret.
    rewrite append_nil_r, Nat.add_0_r. done.
  - apply Forall_cons in Hfiles as [[Hne [stored Hstored]] Hrest].
    simpl. unfold bind at 1. unfold file_append at 1. rewrite Hold. simpl.
    unfold bind at 1. unfold read_file at 1. simpl.
    rewrite lookup_insert_ne, Hstored by done.
    unfold bind at 1. unfold file_append at 1. simpl.
    rewrite lookup_insert_eq. simpl.
    unfold bind at 1. unfold file_append at 1. simpl.
    rewrite lookup_insert_eq. simpl.
    rewrite !insert_insert_eq.
    set (old3 := ((old +:+ batch_separator i file_path)
                  +:+ String.concat ""
                        (drop (find_content_start 0 (readlines stored))
                              (readlines stored)))
                 +:+ String LF "").
    set (w3 := {| dirs := dirs w;
                  files := <[combined_filepath := old3]> (files w);
                  now_calls := now_calls w; llm_calls := llm_calls w |}).
    destruct (IH (S i) combined_filepath old3
                 (total + count_name_marks (readlines stored))%nat w3)
      as (body & w' & Hrun & Hnow & Hcomb & Hother).
    { simpl. apply lookup_insert_eq. }
    { eapply Forall_impl; [exact Hrest|]. simpl.
      intros path [Hp Hsome]. split; [done|].
      by rewrite lookup_insert_ne. }
    assert (Hmarks : marks_in w3 <$> rest = marks_in w <$> rest).
    { apply Forall_fmap_ext_1. eapply Forall_impl; [exact Hrest|]. simpl.
      intros path [Hp _]. unfold marks_in. simpl.
      by rewrite lookup_insert_ne. }
    exists (batch_separator i file_path
            +:+ String.concat ""
                  (drop (find_content_start 0 (readlines stored))
                        (readlines stored))
            +:+ String LF "" +:+ body), w'.
    rewrite Hrun, Hmarks. repeat split.
    + do 2 f_equal. change (list_fmap ?A ?B ?g ?l) with (g <$> l).
      unfold marks_in at 2. rewrite Hstored. simpl. lia.
    + by rewrite Hnow.
    + rewrite Hcomb. f_equal. subst old3. by rewrite !append_assoc.
    + intros path Hp. rewrite Hother by done. simpl.
      by rewrite lookup_insert_ne.
Qed.

Lemma strip_prefix_append_same (base a b : string) :
  strip_prefix (base +:+ a) (base +:+ b) = strip_prefix a b.
Proof.
  induction base as [|c base IH]; [done|].
  rewrite !append_cons. simpl. by rewrite Ascii.eqb_refl.
Qed.

Lemma combined_not_artifact (output_folder : string) (timestamp : datetime) :
  glob_match output_folder
             (os_path_join output_folder (combined_name timestamp))
  = false.
Proof.
  unfold glob_match.
  change (os_path_join output_folder (combined_name timestamp))
    with (dir_base output_folder +:+ combined_name timestamp).
  change (os_path_join output_folder "converted_metrics_")
    with (dir_base output_folder +:+ "converted_metrics_").
  by rewrite strip_prefix_append_same.
Qed.

Lemma result_files_of_stored (output_folder : string) (w : world)
      (path : string) :
  path ∈ result_files_of output_folder w ->
  glob_match output_folder path = true /\ is_Some (files w !! path).
Proof.
  unfold result_files_of. rewrite py_sorted_Permutation.
  intros Hin. apply list_elem_of_filter in Hin as [Hmatch Hin].
  split; [done|].
  apply list_elem_of_fmap in Hin as ([p text] & -> & Hin).
  apply elem_of_map_to_list in Hin. by exists text.
Qed.

(** What the combiner reports: the summary line of the combined file gives
    the number of lines with ['name:'] over the artifacts found in the
    folder. *)
Lemma combine_reports_marks (E : env) (output_folder : string) (w : world) :
  output_folder ∈ dirs w ->
  result_files_of output_folder w <> [] ->
  let combined_filepath :=
    os_path_join output_folder (combined_name (clock E (now_calls w))) in
  let n := length (result_files_of output_folder w) in
  exists body w',
    combine_all_results E output_folder w = (Ok (Some combined_filepath), w')
    /\ files w' !! combined_filepath
       = Some (combined_header (clock E (S (now_calls w))) n
               +:+ body
               +:+ combined_footer
                     (sum_list (marks_in w
                                  <$> result_files_of output_folder w))
                     n (clock E (S (S (now_calls w))))).
Proof.
  intros Hdir Hne combined_filepath n.
  unfold combine_all_results, bind at 1, glob at 1.
  fold (result_files_of output_folder w).
  destruct (result_files_of output_folder w) as [|first others] eqn:Hfiles;
    [done|].
  rewrite <- Hfiles.
  unfold bind at 1, datetime_now at 1.
  fold combined_filepath.
  unfold bind at 1, write_file at 1. simpl dirs.
  rewrite bool_decide_eq_true_2 by done.
  unfold bind at 1, datetime_now at 1. simpl now_calls.
  unfold bind at 1, file_append at 1. simpl files.
  rewrite lookup_insert_eq, insert_insert_eq. simpl default.
  rewrite append_nil_l. simpl dirs. simpl now_calls. simpl llm_calls.
  set (header := combined_header (clock E (S (now_calls w)))
                   (length (result_files_of output_folder w))).
  set (w1 := {| dirs := dirs w;
                files := <[combined_filepath := header]> (files w);
                now_calls := S (S (now_calls w));
                llm_calls := llm_calls w |}).
  assert (Hstored : Forall (fun path => path <> combined_filepath
                                        /\ is_Some (files w1 !! path))
                           (result_files_of output_folder w)).
  { apply Forall_forall. intros path Hin.
    apply result_files_of_stored in Hin as [Hmatch Hsome].
    assert (path <> combined_filepath) as Hp.
    { intros ->. subst combined_filepath.
      by rewrite combined_not_artifact in Hmatch. }
    split; [done|]. simpl. by rewrite lookup_insert_ne. }
  destruct (combine_loop_total (result_files_of output_folder w) 1
              combined_filepath header 0 w1)
    as (body & w2 & Hloop & Hnow & Hcomb & _);
    [apply lookup_insert_eq|done|].
  assert (Hmarks : marks_in w1 <$> result_files_of output_folder w
                   = marks_in w <$> result_files_of output_folder w).
  { apply Forall_fmap_ext_1. eapply Forall_impl; [exact Hstored|]. simpl.
    intros path [Hp _]. unfold marks_in. simpl.
    by rewrite lookup_insert_ne. }
  unfold bind at 1. rewrite Hloop, Hmarks. simpl.
  unfold bind at 1, datetime_now at 1.
  unfold bind at 1, file_append at 1. simpl. unfold ret.
  rewrite Hcomb, Hnow. simpl.
  exists body. eexists. split; [reflexivity|].
  cbn [files]. rewrite lookup_insert_eq. subst header n.
  rewrite append_assoc. by rewrite Hfiles.
Qed.

(** ** From the saved artifacts to the combined total *)



Lemma all_chars_app (P : ascii -> bool) (a b : string) :
  all_chars P (a +:+ b) = all_chars P a && all_chars P b.
Proof.
  induction a as [|c a IH]; [done|].
  rewrite append_cons. simpl. by rewrite IH, andb_assoc.
Qed.

Lemma all_chars_impl (P Q : ascii -> bool) (s : string) :
  (forall c, P c = true -> Q c = true) ->
  all_chars P s = true -> all_chars Q s = true.
Proof.
  intros HPQ. induction s as [|c s IH]; [done|]. simpl.
  intros [Hc Hs]%andb_true_iff. by rewrite (HPQ c Hc), IH.
Qed.

Lemma digit_char_stamp (d : nat) :
  (d < 10)%nat -> stamp_char (digit_char d) = true.
Proof.
  intros Hd.
  destruct d as [|[|[|[|[|[|[|[|[|[|d]]]]]]]]]]; try reflexivity. lia.
Qed.

Lemma str_of_nat_aux_stamp (fuel n : nat) (acc : string) :
  all_chars stamp_char acc = true ->
  all_chars stamp_char (str_of_nat_aux fuel n acc) = true.
Proof.
  revert n acc. induction fuel as [|fuel IH]; intros n acc Hacc.
  - cbn [str_of_nat_aux all_chars].
    rewrite digit_char_stamp, Hacc; [done|]. apply Nat.mod_upper_bound. lia.
  - cbn [str_of_nat_aux].
    assert (all_chars stamp_char (String (digit_char (n mod 10)) acc) = true).
    { cbn [all_chars]. rewrite digit_char_stamp, Hacc; [done|].
      apply Nat.mod_upper_bound. lia. }
    destruct (n / 10 =? 0)%nat; [done|]. by apply IH.
Qed.

Lemma str_of_nat_stamp (n : nat) : all_chars stamp_char (str_of_nat n) = true.
Proof. by apply str_of_nat_aux_stamp. Qed.

Lemma str_repeat_zero_stamp (n : nat) :
  all_chars stamp_char (str_repeat "0" n) = true.
Proof.
  induction n as [|n IH]; [done|]. cbn [str_repeat].
  by rewrite all_chars_app, IH.
Qed.

Lemma zfill_stamp (width n : nat) :
  all_chars stamp_char (zfill width (str_of_nat n)) = true.
Proof.
  unfold zfill. by rewrite all_chars_app, str_repeat_zero_stamp, str_of_nat_stamp.
Qed.

Lemma strftime_iso_stamp (t : datetime) :
  all_chars stamp_char (strftime_iso t) = true.
Proof.
  unfold strftime_iso, pad2, pad4.
  rewrite !all_chars_app, !zfill_stamp. reflexivity.
Qed.

Lemma strftime_compact_stamp (t : datetime) :
  all_chars stamp_char (strftime_compact t) = true.
Proof.
  unfold strftime_compact, pad2, pad4.
  rewrite !all_chars_app, !zfill_stamp. reflexivity.
Qed.



Lemma endswith_append (a b : string) : endswith (a +:+ b) b = true.
Proof.
  induction a as [|c a IH].
  - rewrite append_nil_l. destruct b; simpl; by rewrite ?String.eqb_refl, ?Ascii.eqb_refl.
  - rewrite append_cons. cbn [endswith]. rewrite IH. by rewrite orb_true_r.
Qed.

Lemma contains_absent (c0 : ascii) (rest s : string) :
  all_chars (differs c0) s = true -> contains (String c0 rest) s = false.
Proof.
  induction s as [|c s IH]; [done|].
  cbn [all_chars contains String.prefix]. intros [Hc Hs]%andb_true_iff.
  rewrite (IH Hs), orb_false_r.
  destruct (ascii_dec c0 c) as [<-|Hne]; [|done].
  unfold differs in Hc. by rewrite Ascii.eqb_refl in Hc.
Qed.

Lemma stamp_char_plain (c : ascii) :
  stamp_char c = true ->
  differs SEP c = true /\ differs "n" c = true
  /\ differs CR c = true /\ differs LF c = true.
Proof.
  destruct c as [[] [] [] [] [] [] [] []]; vm_compute; intros H;
    try discriminate H; repeat split.
Qed.

Lemma artifact_found (output_folder : string) (timestamp : datetime) :
  glob_match output_folder
             (os_path_join output_folder (artifact_name timestamp))
  = true.
Proof.
  unfold glob_match.
  change (os_path_join output_folder (artifact_name timestamp))
    with (dir_base output_folder
          +:+ ("converted_metrics_"
               +:+ (strftime_compact timestamp +:+ ".txt"))).
  change (os_path_join output_folder "converted_metrics_")
    with (dir_base output_folder +:+ "converted_metrics_").
  rewrite strip_prefix_append_same.
  change (strip_prefix "converted_metrics_"
            ("converted_metrics_" +:+ (strftime_compact timestamp +:+ ".txt")))
    with (Some (strftime_compact timestamp +:+ ".txt")).
  cbv beta iota.
  rewrite endswith_append.
  rewrite (contains_absent SEP); [done|].
  rewrite all_chars_app. apply andb_true_iff. split; [|reflexivity].
  eapply all_chars_impl; [|apply strftime_compact_stamp].
  intros c Hc. by apply stamp_char_plain in Hc as (? & _).
Qed.


Lemma universal_newlines_plain (a b : string) :
  all_chars (differs CR) a = true ->
  universal_newlines (a +:+ b) = a +:+ universal_newlines b.
Proof.
  induction a as [|c a IH]; [done|].
  cbn [all_chars]. intros [Hc Ha]%andb_true_iff.
  rewrite !append_cons. cbn [universal_newlines].
  unfold differs in Hc. apply negb_true_iff in Hc. rewrite Hc.
  by rewrite IH.
Qed.

Lemma keepends_lines_first (a b : string) :
  all_chars (differs LF) a = true ->
  keepends_lines (a +:+ String LF b)
  = (a +:+ String LF "") :: keepends_lines b.
Proof.
  induction a as [|c a IH].
  - intros _. rewrite !append_nil_l. cbn [keepends_lines].
    by rewrite Ascii.eqb_refl.
  - cbn [all_chars]. intros [Hc Ha]%andb_true_iff.
    rewrite !append_cons. cbn [keepends_lines].
    unfold differs in Hc. apply negb_true_iff in Hc. rewrite Hc.
    by rewrite (IH Ha).
Qed.

Lemma count_name_marks_skip (line : string) (lines : list string) :
  contains "name:" line = false ->
  count_name_marks (line :: lines) = count_name_marks lines.
Proof.
  intros Hline. unfold count_name_marks.
  rewrite filter_cons_False; [done|]. by rewrite Hline.
Qed.

Lemma stamp_no_mark (s tail : string) :
  all_chars stamp_char s = true ->
  all_chars (differs "n") tail = true ->
  contains "name:" (s +:+ tail) = false.
Proof.
  intros Hs Htail. apply contains_absent.
  rewrite all_chars_app, Htail, andb_true_r.
  eapply all_chars_impl; [|exact Hs].
  intros c Hc. by apply stamp_char_plain in Hc as (_ & ? & _).
Qed.

Lemma stamp_line (P : ascii -> bool) (s : string) :
  (forall c, stamp_char c = true -> P c = true) ->
  all_chars stamp_char s = true -> all_chars P s = true.
Proof. apply all_chars_impl. Qed.

Lemma prefix_cons (a b : ascii) (n s : string) :
  String.prefix (String a n) (String b s) = Ascii.eqb a b && String.prefix n s.
Proof.
  cbn [String.prefix]. destruct (ascii_dec a b) as [->|Hne].
  - by rewrite Ascii.eqb_refl.
  - apply Ascii.eqb_neq in Hne. by rewrite Hne.
Qed.

Lemma contains_cons (needle : string) (c : ascii) (s : string) :
  contains needle (String c s)
  = String.prefix needle (String c s) || contains needle s.
Proof. reflexivity. Qed.

Ltac skip_plain_prefix :=
  repeat (rewrite contains_cons;
          repeat (rewrite prefix_cons; cbn [Ascii.eqb Bool.eqb andb]);
          cbn [orb]).

Lemma generated_line_no_mark (generated : datetime) :
  contains "name:"
    ("# Generated on: " +:+ strftime_iso generated +:+ String LF "") = false.
Proof.
  rewrite !append_cons, append_nil_l.
  skip_plain_prefix.
  apply stamp_no_mark; [apply strftime_iso_stamp|reflexivity].
Qed.

Lemma total_line_no_mark (total_conversions : nat) :
  contains "name:"
    ("# Total conversions: " +:+ str_of_nat total_conversions
     +:+ String LF "") = false.
Proof.
  rewrite !append_cons, append_nil_l.
  skip_plain_prefix.
  apply stamp_no_mark; [apply str_of_nat_stamp|reflexivity].
Qed.


Lemma stamp_no_CR (s : string) :
  all_chars stamp_char s = true -> all_chars (differs CR) s = true.
Proof.
  apply all_chars_impl. intros c Hc.
  by apply stamp_char_plain in Hc as (_ & _ & ? & _).
Qed.

Lemma stamp_no_LF (s : string) :
  all_chars stamp_char s = true -> all_chars (differs LF) s = true.
Proof.
  apply all_chars_impl. intros c Hc.
  by apply stamp_char_plain in Hc as (_ & _ & _ & ?).
Qed.

Lemma artifact_header_no_CR (generated : datetime) (total : nat) :
  all_chars (differs CR) (artifact_header generated total) = true.
Proof.
  unfold artifact_header. rewrite !all_chars_app.
  rewrite (stamp_no_CR _ (strftime_iso_stamp generated)).
  rewrite (stamp_no_CR _ (str_of_nat_stamp total)).
  reflexivity.
Qed.

Lemma artifact_header_lines (generated : datetime) (total : nat)
      (text : string) :
  keepends_lines (artifact_header generated total +:+ text)
  = [ "# DAX to SparkSQL UC Metric View Conversion Results" +:+ String LF "";
      ("# Generated on: " +:+ strftime_iso generated) +:+ String LF "";
      ("# Total conversions: " +:+ str_of_nat total) +:+ String LF "";
      String LF "";
      str_repeat "=" 80 +:+ String LF "";
      String LF "" ]
    ++ keepends_lines text.
Proof.
  assert (artifact_header generated total +:+ text
          = "# DAX to SparkSQL UC Metric View Conversion Results"
            +:+ String LF
              (("# Generated on: " +:+ strftime_iso generated)
               +:+ String LF
                 (("# Total conversions: " +:+ str_of_nat total)
                  +:+ String LF
                    (EmptyString
                     +:+ String LF
                       (str_repeat "=" 80
                        +:+ String LF (EmptyString +:+ String LF text))))))
    as ->.
  { unfold artifact_header. rewrite !append_assoc. reflexivity. }
  rewrite keepends_lines_first by reflexivity.
  rewrite keepends_lines_first.
  2:{ rewrite all_chars_app.
      by rewrite (stamp_no_LF _ (strftime_iso_stamp generated)). }
  rewrite keepends_lines_first.
  2:{ rewrite all_chars_app.
      by rewrite (stamp_no_LF _ (str_of_nat_stamp total)). }
  rewrite keepends_lines_first by reflexivity.
  rewrite keepends_lines_first by reflexivity.
  rewrite keepends_lines_first by reflexivity.
  reflexivity.
Qed.

(** The header that [save_conversion_results] writes has no line with
    ['name:'] in it. *)
Lemma header_adds_no_marks (generated : datetime) (total : nat)
      (text : string) :
  count_name_marks (readlines (artifact_header generated total +:+ text))
  = count_name_marks (readlines text).
Proof.
  unfold readlines.
  rewrite universal_newlines_plain by apply artifact_header_no_CR.
  rewrite artifact_header_lines.
  cbn [app].
  rewrite count_name_marks_skip by reflexivity.
  rewrite append_assoc, count_name_marks_skip
    by apply generated_line_no_mark.
  rewrite append_assoc, count_name_marks_skip by apply total_line_no_mark.
  rewrite count_name_marks_skip by reflexivity.
  rewrite count_name_marks_skip by reflexivity.
  rewrite count_name_marks_skip by reflexivity.
  reflexivity.
Qed.


Lemma worker_success (E : env) (batch_name : string)
      (metrics_data : list metric) (thread_id : nat) (w : world)
      (text : string) :
  chain_invoke E (llm_calls w) (json_dumps E metrics_data) = Ok text ->
  OUTPUT_FOLDER ∈ dirs w ->
  let saved_file :=
    os_path_join OUTPUT_FOLDER (artifact_name (clock E (now_calls w))) in
  process_metrics_batch E batch_name metrics_data thread_id w
  = (Ok (text, saved_file, length metrics_data),
     {| dirs := dirs w;
        files := <[saved_file :=
                     artifact_header (clock E (S (now_calls w)))
                                     (count_name_marks (splitlines text))
                     +:+ text]> (files w);
        now_calls := S (S (now_calls w));
        llm_calls := S (llm_calls w) |}).
Proof.
  intros Htext Hdir saved_file.
  unfold process_metrics_batch, bind at 1,
    convert_dax_to_sparksql_uc_metric_view.
  rewrite Htext.
  unfold bind at 1, save_conversion_results, bind at 1, datetime_now at 1.
  unfold bind at 1, write_file. cbn [dirs].
  rewrite bool_decide_eq_true_2 by done.
  unfold bind at 1, datetime_now. unfold bind at 1, file_append, ret.
  cbn [dirs files now_calls llm_calls].
  rewrite lookup_insert_eq, insert_insert_eq. reflexivity.
Qed.

Lemma worker_translator_down (E : env) (batch_name : string)
      (metrics_data : list metric) (thread_id : nat) (w : world) (e : exn) :
  chain_invoke E (llm_calls w) (json_dumps E metrics_data) = Raise e ->
  process_metrics_batch E batch_name metrics_data thread_id w
  = (Raise e,
     {| dirs := dirs w; files := files w; now_calls := now_calls w;
        llm_calls := S (llm_calls w) |}).
Proof.
  intros He.
  unfold process_metrics_batch, bind,
    convert_dax_to_sparksql_uc_metric_view.
  by rewrite He.
Qed.

Lemma worker_no_folder (E : env) (batch_name : string)
      (metrics_data : list metric) (thread_id : nat) (w : world)
      (text : string) :
  chain_invoke E (llm_calls w) (json_dumps E metrics_data) = Ok text ->
  OUTPUT_FOLDER ∉ dirs w ->
  exists e,
    process_metrics_batch E batch_name metrics_data thread_id w
    = (Raise e,
       {| dirs := dirs w; files := files w; now_calls := S (now_calls w);
          llm_calls := S (llm_calls w) |}).
Proof.
  intros Htext Hdir.
  unfold process_metrics_batch, bind at 1,
    convert_dax_to_sparksql_uc_metric_view.
  rewrite Htext.
  unfold bind at 1, save_conversion_results, bind at 1, datetime_now at 1.
  unfold bind at 1, write_file. cbn [dirs].
  rewrite bool_decide_eq_false_2 by done. eauto.
Qed.

(** X3: A worker that raises has written nothing: every file of the world is as
    it was, and so are the directories. *)
Theorem failed_worker_writes_nothing (E : env) (batch_name : string)
        (metrics_data : list metric) (thread_id : nat) (w : world) (e : exn) :
  fst (process_metrics_batch E batch_name metrics_data thread_id w) = Raise e ->
  files (snd (process_metrics_batch E batch_name metrics_data thread_id w))
  = files w
  /\ dirs (snd (process_metrics_batch E batch_name metrics_data thread_id w))
     = dirs w.
Proof.
  intros Hraise.
  destruct (chain_invoke E (llm_calls w) (json_dumps E metrics_data))
    as [text|e'] eqn:Hchain.
  - destruct (decide (OUTPUT_FOLDER ∈ dirs w)) as [Hdir|Hdir].
    + rewrite (worker_success E batch_name metrics_data thread_id w text
                 Hchain Hdir) in Hraise. discriminate.
    + destruct (worker_no_folder E batch_name metrics_data thread_id w text
                  Hchain Hdir) as [e'' ->]. done.
  - by rewrite (worker_translator_down E batch_name metrics_data thread_id w
                  e' Hchain).
Qed.




Lemma run_workers_success (E : env) (turns : list task) :
  forall w : world,
    OUTPUT_FOLDER ∈ dirs w ->
    (forall (j : nat) t, turns !! j = Some t ->
       exists text,
         chain_invoke E (llm_calls w + j) (json_dumps E (task_data t))
         = Ok text
         /\ count_name_marks (readlines text) = length (task_data t)) ->
    exists arts : list (string * string),
      Forall (fun f => is_ok (returned f) = true) (run_workers E turns w).1
      /\ dirs (run_workers E turns w).2 = dirs w
      /\ now_calls (run_workers E turns w).2
         = (now_calls w + 2 * length turns)%nat
      /\ files (run_workers E turns w).2 = foldl store (files w) arts
      /\ arts.*1 = saved_path E w <$> seq 0 (length turns)
      /\ Forall2 (fun a t => count_name_marks (readlines a.2)
                             = length (task_data t)) arts turns.
Proof.
  induction turns as [|t turns IH]; intros w Hdir Hchain.
  - exists []. simpl. repeat split; try done; try lia.
  - destruct (Hchain 0%nat t eq_refl) as (text & Htext & Hmarks).
    rewrite Nat.add_0_r in Htext.
    cbn [run_workers].
    rewrite (worker_success E (task_name t) (task_data t) (task_num t) w
               text Htext Hdir).
    set (path := os_path_join OUTPUT_FOLDER
                   (artifact_name (clock E (now_calls w)))).
    set (stored := artifact_header (clock E (S (now_calls w)))
                     (count_name_marks (splitlines text)) +:+ text).
    set (w1 := {| dirs := dirs w; files := <[path := stored]> (files w);
                  now_calls := S (S (now_calls w));
                  llm_calls := S (llm_calls w) |}).
    destruct (IH w1) as (arts & Hok & Hdirs & Hnow & Hfiles & Hnames & Hcount).
    { done. }
    { intros j t' Hj. destruct (Hchain (S j) t' Hj) as (text' & H1 & H2).
      exists text'. split; [|done]. simpl.
      by replace (S (llm_calls w + j)) with (llm_calls w + S j)%nat by lia. }
    destruct (run_workers E turns w1) as [fs w2]. simpl in *.
    exists ((path, stored) :: arts). repeat split.
    + constructor; [done|done].
    + done.
    + rewrite Hnow. lia.
    + by rewrite Hfiles.
    + rewrite fmap_cons. f_equal.
      * unfold saved_path. by rewrite Nat.mul_0_r, Nat.add_0_r.
      * rewrite Hnames. rewrite <- fmap_S_seq, <- list_fmap_compose.
        apply list_fmap_ext. intros i j _. unfold saved_path. simpl.
        do 3 f_equal. lia.
    + constructor; [|done]. simpl. subst stored.
      by rewrite header_adds_no_marks.
Qed.


Lemma foldl_store_lookup_out (arts : list (string * string))
      (m : gmap string string) (x : string) :
  x ∉ arts.*1 -> foldl store m arts !! x = m !! x.
Proof.
  revert m. induction arts as [|a arts IH]; intros m Hx; [done|].
  rewrite fmap_cons in Hx. apply not_elem_of_cons in Hx as [Hne Hx].
  simpl. rewrite IH by done. unfold store. by rewrite lookup_insert_ne.
Qed.

Lemma foldl_store_lookup_in (arts : list (string * string))
      (m : gmap string string) (x v : string) :
  NoDup arts.*1 -> (x, v) ∈ arts -> foldl store m arts !! x = Some v.
Proof.
  revert m. induction arts as [|a arts IH]; intros m Hnd Hin.
  - by apply elem_of_nil in Hin.
  - rewrite fmap_cons in Hnd. apply NoDup_cons in Hnd as [Hfresh Hnd].
    simpl. apply elem_of_cons in Hin as [<-|Hin].
    + rewrite foldl_store_lookup_out by done.
      unfold store. simpl. apply lookup_insert_eq.
    + by apply IH.
Qed.

Lemma artifacts_listing (output_folder : string)
      (arts : list (string * string)) (m : gmap string string) :
  NoDup arts.*1 ->
  Forall (fun a => glob_match output_folder a.1 = true) arts ->
  (forall path, glob_match output_folder path = true -> m !! path = None) ->
  filter (fun path => glob_match output_folder path = true)
         (map fst (map_to_list (foldl store m arts)))
  ≡ₚ arts.*1.
Proof.
  intros Hnd Hmatch Hnone.
  apply NoDup_Permutation; [|done|].
  - apply NoDup_filter, NoDup_fst_map_to_list.
  - intros x. rewrite list_elem_of_filter. split.
    + intros [Hx Hin].
      apply list_elem_of_fmap in Hin as ([p v] & -> & Hin).
      apply elem_of_map_to_list in Hin. simpl in *.
      destruct (decide (p ∈ arts.*1)) as [|Hout]; [done|].
      rewrite foldl_store_lookup_out in Hin by done.
      by rewrite Hnone in Hin.
    + intros Hin. apply list_elem_of_fmap in Hin as ([p v] & -> & Hin).
      simpl. split.
      * rewrite Forall_forall in Hmatch. by apply (Hmatch (p, v)).
      * apply list_elem_of_fmap. exists (p, v). split; [done|].
        apply elem_of_map_to_list. by apply foldl_store_lookup_in.
Qed.

Lemma marks_of_artifacts (w : world) (arts : list (string * string)) :
  Forall (fun a => files w !! a.1 = Some a.2) arts ->
  sum_list (marks_in w <$> arts.*1)
  = sum_list ((fun a => count_name_marks (readlines a.2)) <$> arts).
Proof.
  induction 1 as [|a arts Ha _ IH]; [done|].
  rewrite !fmap_cons. cbn [sum_list sum_list_with]. rewrite <- IH.
  unfold marks_in at 1. by rewrite Ha.
Qed.

Lemma marks_of_turns (arts : list (string * string)) (turns : list task) :
  Forall2 (fun a t => count_name_marks (readlines a.2)
                      = length (task_data t)) arts turns ->
  sum_list ((fun a => count_name_marks (readlines a.2)) <$> arts)
  = sum_list ((fun t => length (task_data t)) <$> turns).
Proof.
  induction 1 as [|a t arts turns Hat _ IH]; [done|].
  rewrite !fmap_cons. cbn [sum_list sum_list_with]. by rewrite Hat, IH.
Qed.

Lemma length_concat_sum (batches : list (list metric)) :
  length (concat batches) = sum_list (length <$> batches).
Proof.
  induction batches as [|b batches IH]; [done|].
  simpl. rewrite length_app, IH. done.
Qed.

Lemma append_inj (base a b : string) : base +:+ a = base +:+ b -> a = b.
Proof.
  induction base as [|c base IH]; [done|].
  rewrite !append_cons. intros [= H]. by apply IH.
Qed.


Lemma process_batches_parallel_run (E : env) (run_picks done_picks : list nat)
      (metric_batches : list (list metric)) (max_workers : nat) (w : world) :
  metric_batches <> [] -> (0 < max_workers)%nat ->
  let ran_all :=
    run_workers E (pick_order run_picks (submit_all 1 metric_batches)) w in
  process_batches_parallel E run_picks done_picks metric_batches
                           max_workers w
  = (Ok (py_sorted by_batch_num
           (collect <$> pick_order done_picks ran_all.1)),
     ran_all.2).
Proof.
  intros Hne Hmw ran_all. unfold process_batches_parallel.
  destruct (Nat.eqb_spec max_workers 0) as [|_]; [lia|].
  fold ran_all. destruct ran_all as [F w'].
  destruct (Nat.eqb_spec (length metric_batches) 0) as [Hz|_].
  { by destruct metric_batches. }
  by rewrite fold_left_append_map.
Qed.

Lemma collect_success (E : env) (f : future) :
  ran E f -> is_ok (returned f) = true ->
  failed (collect f) = false
  /\ count (collect f) = length (task_data (submitted f)).
Proof.
  intros Hran Hok.
  assert (Hfailed : failed (collect f) = false).
  { unfold collect. by destruct (returned f) as [[[? ?] ?]|]. }
  split; [done|]. by rewrite (collect_count E f Hran), Hfailed.
Qed.

Lemma counts_of_successes (E : env) (fs : list future) :
  Forall (ran E) fs -> Forall (fun f => is_ok (returned f) = true) fs ->
  Forall (fun r => failed r = false) (collect <$> fs)
  /\ sum_list (count <$> (collect <$> fs))
     = sum_list ((fun t => length (task_data t)) <$> (submitted <$> fs)).
Proof.
  induction 1 as [|f fs Hf _ IH]; intros Hok; [done|].
  apply Forall_cons in Hok as [Hokf Hok].
  destruct (IH Hok) as [IH1 IH2].
  destruct (collect_success E f Hf Hokf) as [Hfailed Hcount].
  rewrite !fmap_cons. split; [by constructor|].
  cbn [sum_list sum_list_with]. by rewrite Hcount, IH2.
Qed.


(** X11: From the units to the combined total.  Start from a folder without
    artifacts; let every translator call of the run succeed with a text
    that, read back, has one line with ['name:'] per unit of its batch; and
    let the saves of the run get names that differ.  Then every batch
    succeeds, the counts of the entries add up to the number of input units,
    and the combined file reports that number as its total and the number
    of batches as its number of files. *)
Theorem units_reach_combined_total (E : env) (run_picks done_picks : list nat)
        (metric_batches : list (list metric)) (max_workers : nat)
        (w : world) :
  metric_batches <> [] -> (0 < max_workers)%nat ->
  OUTPUT_FOLDER ∈ dirs w ->
  (forall path, glob_match OUTPUT_FOLDER path = true ->
                files w !! path = None) ->
  (forall (j : nat) batch,
      (j < length metric_batches)%nat -> batch ∈ metric_batches ->
      exists text,
        chain_invoke E (llm_calls w + j) (json_dumps E batch) = Ok text
        /\ count_name_marks (readlines text) = length batch) ->
  NoDup ((fun j => artifact_name (clock E (now_calls w + 2 * j)))
           <$> seq 0 (length metric_batches)) ->
  exists all_results w1 combined w2 body,
    process_batches_parallel E run_picks done_picks metric_batches
                             max_workers w
    = (Ok all_results, w1)
    /\ Forall (fun r => failed r = false) all_results
    /\ sum_list (count <$> all_results) = length (concat metric_batches)
    /\ combine_all_results E OUTPUT_FOLDER w1 = (Ok (Some combined), w2)
    /\ files w2 !! combined
       = Some (combined_header (clock E (S (now_calls w1)))
                               (length metric_batches)
               +:+ body
               +:+ combined_footer (length (concat metric_batches))
                                   (length metric_batches)
                                   (clock E (S (S (now_calls w1))))).
Proof.
  intros Hne Hmw Hdir Hfresh Hchain Hstamps.
  set (tasks := submit_all 1 metric_batches).
  set (turns := pick_order run_picks tasks).
  assert (Hturns : turns ≡ₚ tasks) by apply pick_order_Permutation.
  assert (Hdata : task_data <$> tasks = metric_batches)
    by apply submit_all_data.
  assert (Hlen : length turns = length metric_batches).
  { rewrite Hturns. apply (f_equal length) in Hdata.
    by rewrite length_fmap in Hdata. }
  assert (Hunits : sum_list ((fun t => length (task_data t)) <$> turns)
                   = length (concat metric_batches)).
  { rewrite Hturns, length_concat_sum, <- Hdata, <- list_fmap_compose.
    done. }
  destruct (run_workers_success E turns w Hdir)
    as (arts & Hok & Hdirs & Hnow & Hfiles & Hnames & Hmarks).
  { intros j t Hj. apply Hchain.
    - rewrite <- Hlen. by eapply lookup_lt_Some.
    - rewrite <- Hdata. apply list_elem_of_fmap_2.
      rewrite <- Hturns. by eapply list_elem_of_lookup_2. }
  pose proof (process_batches_parallel_run E run_picks done_picks
                metric_batches max_workers w Hne Hmw) as Hrun.
  cbv zeta in Hrun. fold tasks turns in Hrun.
  pose proof (run_workers_submitted E turns w) as Hsub.
  pose proof (run_workers_ran E turns w) as Hran.
  destruct (run_workers E turns w) as [F w1]. simpl in *.
  destruct (counts_of_successes E F Hran Hok) as [Hnofail Hcounts].
  assert (Hperm : py_sorted by_batch_num (collect <$> pick_order done_picks F)
                  ≡ₚ collect <$> F).
  { by rewrite py_sorted_Permutation, pick_order_Permutation. }
  (* the artifacts of the run are what the combiner finds *)
  assert (Hnodup : NoDup arts.*1).
  { rewrite Hnames, Hlen. unfold saved_path.
    rewrite (list_fmap_compose
               (fun j => artifact_name (clock E (now_calls w + 2 * j)))
               (append (dir_base OUTPUT_FOLDER))).
    apply NoDup_fmap_2; [|done]. intros a b. apply append_inj. }
  assert (Hfound : Forall (fun a => glob_match OUTPUT_FOLDER a.1 = true) arts).
  { apply Forall_forall. intros a Ha.
    assert (a.1 ∈ arts.*1) as Hin by by apply list_elem_of_fmap_2.
    rewrite Hnames in Hin.
    apply list_elem_of_fmap in Hin as (j & -> & _). apply artifact_found. }
  assert (Hlist : result_files_of OUTPUT_FOLDER w1 ≡ₚ arts.*1).
  { unfold result_files_of. rewrite py_sorted_Permutation, Hfiles.
    by apply artifacts_listing. }
  assert (Hcount : length (result_files_of OUTPUT_FOLDER w1)
                   = length metric_batches).
  { rewrite Hlist, Hnames, length_fmap, length_seq. done. }
  assert (Hstored : Forall (fun a => files w1 !! a.1 = Some a.2) arts).
  { apply Forall_forall. intros [p v] Ha. rewrite Hfiles.
    by apply foldl_store_lookup_in. }
  assert (Htotal : sum_list (marks_in w1 <$> result_files_of OUTPUT_FOLDER w1)
                   = length (concat metric_batches)).
  { rewrite Hlist, (marks_of_artifacts w1 arts Hstored),
      (marks_of_turns arts turns Hmarks). done. }
  destruct (combine_reports_marks E OUTPUT_FOLDER w1)
    as (body & w2 & Hcombine & Hcombined).
  { by rewrite Hdirs. }
  { intros Hnil. rewrite Hnil in Hcount. simpl in Hcount.
    destruct metric_batches; [done|discriminate]. }
  rewrite Htotal, Hcount in Hcombined.
  eexists _, w1, _, w2, body. split; [exact Hrun|].
  split; [by rewrite Hperm|].
  split; [by rewrite Hperm, Hcounts, Hsub|].
  split; [exact Hcombine|exact Hcombined].
Qed.

(** ** More on the orchestrator, the worker and the combiner *)

Lemma submit_all_names (i : nat) (batches : list (list metric)) :
  task_name <$> submit_all i batches
  = (fun k => "Batch " +:+ str_of_nat k) <$> seq i (length batches).
Proof.
  revert i. induction batches as [|b batches IH]; intros i; [done|].
  simpl. by rewrite IH.
Qed.

Lemma collect_batch_names (fs : list future) :
  batch <$> (collect <$> fs) = task_name <$> (submitted <$> fs).
Proof.
  induction fs as [|f fs IH]; [done|].
  rewrite !fmap_cons. f_equal; [|done].
  unfold collect. by destruct (returned f) as [[[? ?] ?]|].
Qed.

(** X1: For a non-empty list of batches the orchestrator returns one entry per
    batch, numbered 1, 2, ... and named "Batch 1", "Batch 2", ... in the
    order of the batches, whatever the order in which the workers ran and
    completed. *)
Theorem outcomes_follow_batches (E : env) (run_picks done_picks : list nat)
        (metric_batches : list (list metric)) (max_workers : nat)
        (w : world) :
  metric_batches <> [] -> (0 < max_workers)%nat ->
  exists all_results w',
    process_batches_parallel E run_picks done_picks metric_batches
                             max_workers w
    = (Ok all_results, w')
    /\ length all_results = length metric_batches
    /\ batch_num <$> all_results = seq 1 (length metric_batches)
    /\ batch <$> all_results
       = (fun k => "Batch " +:+ str_of_nat k)
           <$> seq 1 (length metric_batches).
Proof.
  intros Hne Hmw.
  destruct (process_batches_parallel_futures E run_picks done_picks
              metric_batches max_workers w Hne Hmw)
    as (futures & w' & Hrun & Hsub & _).
  exists (collect <$> futures), w'. split; [done|].
  assert (Hnums : batch_num <$> (collect <$> futures)
                  = seq 1 (length metric_batches)).
  { by rewrite collect_batch_nums, Hsub, submit_all_nums. }
  split.
  { apply (f_equal length) in Hnums.
    by rewrite length_fmap, length_seq in Hnums. }
  split; [done|].
  by rewrite collect_batch_names, Hsub, submit_all_names.
Qed.

Lemma outcomes_follow_batches_witness :
  exists all_results w',
    process_batches_parallel env_ok [2%nat; 0%nat] [1%nat]
      [[total_orders]; [total_amount]; [total_orders; total_amount]] 2
      fresh_world
    = (Ok all_results, w')
    /\ batch_num <$> all_results = [1; 2; 3]%nat
    /\ batch <$> all_results = ["Batch 1"; "Batch 2"; "Batch 3"].
Proof.
  destruct (outcomes_follow_batches env_ok [2%nat; 0%nat] [1%nat]
              [[total_orders]; [total_amount]; [total_orders; total_amount]]
              2 fresh_world)
    as (all_results & w' & Hrun & _ & Hnums & Hnames); [done|lia|].
  exists all_results, w'.
  split; [exact Hrun|]. split; [exact Hnums|exact Hnames].
Defined.

Lemma run_workers_nums (E : env) (turns : list task) (w : world) :
  batch_num <$> (collect <$> (run_workers E turns w).1) = task_num <$> turns.
Proof. by rewrite collect_batch_nums, run_workers_submitted. Qed.

(** X2: The order in which the futures complete has no effect on what the
    orchestrator returns, nor on the world it leaves. *)
Theorem completion_order_irrelevant (E : env)
        (run_picks done_picks done_picks' : list nat)
        (metric_batches : list (list metric)) (max_workers : nat)
        (w : world) :
  process_batches_parallel E run_picks done_picks metric_batches
                           max_workers w
  = process_batches_parallel E run_picks done_picks' metric_batches
                             max_workers w.
Proof.
  unfold process_batches_parallel.
  destruct (max_workers =? 0)%nat; [done|].
  pose proof (run_workers_nums E
                (pick_order run_picks (submit_all 1 metric_batches)) w)
    as Hnums.
  destruct (run_workers E _ w) as [F w']. cbn [fst] in Hnums.
  destruct (length metric_batches =? 0)%nat; [done|].
  rewrite !fold_left_append_map, !app_nil_l. do 2 f_equal.
  change (map collect ?l) with (collect <$> l).
  apply (py_sorted_unique batch_num).
  - rewrite pick_order_Permutation, Hnums, pick_order_Permutation,
      submit_all_nums.
    apply NoDup_seq.
  - by rewrite !pick_order_Permutation.
Qed.

Lemma fresh_world_has_folder : OUTPUT_FOLDER ∈ dirs fresh_world.
Proof. unfold fresh_world. cbn [dirs]. set_solver. Qed.

(** X4: A worker whose translator call succeeds, with the output folder in
    place, returns the text, the path of the artifact and the number of
    units of its batch; the artifact is one the combiner looks for, it holds
    the header followed by the text as returned, the header adds no line
    with ['name:'], and every other file is as it was. *)
Theorem worker_saves_artifact (E : env) (batch_name : string)
        (metrics_data : list metric) (thread_id : nat) (w : world)
        (text : string) :
  chain_invoke E (llm_calls w) (json_dumps E metrics_data) = Ok text ->
  OUTPUT_FOLDER ∈ dirs w ->
  exists saved_file stored w',
    process_metrics_batch E batch_name metrics_data thread_id w
    = (Ok (text, saved_file, length metrics_data), w')
    /\ glob_match OUTPUT_FOLDER saved_file = true
    /\ files w' !! saved_file = Some stored
    /\ stored = artifact_header (clock E (S (now_calls w)))
                                (count_name_marks (splitlines text))
                +:+ text
    /\ count_name_marks (readlines stored) = count_name_marks (readlines text)
    /\ (forall path, path <> saved_file ->
                     files w' !! path = files w !! path).
Proof.
  intros Htext Hdir.
  pose proof (worker_success E batch_name metrics_data thread_id w text
                Htext Hdir) as Hrun.
  cbv zeta in Hrun.
  eexists _, _, _. split; [exact Hrun|].
  split; [apply artifact_found|].
  split; [apply lookup_insert_eq|].
  split; [reflexivity|].
  split; [apply header_adds_no_marks|].
  intros path Hpath. cbn [files]. by rewrite lookup_insert_ne.
Qed.

Lemma worker_saves_artifact_witness :
  exists saved_file stored w',
    process_metrics_batch env_ok "Batch 1" [total_orders] 1 fresh_world
    = (Ok ("- name: measure_0" +:+ String LF "" +:+ "  expr: SUM(x)",
           saved_file, 1%nat), w')
    /\ saved_file
       = "uc_converted_metrics/converted_metrics_20240102_030400.txt"
    /\ files w' !! saved_file = Some stored.
Proof.
  destruct (worker_saves_artifact env_ok "Batch 1" [total_orders] 1
              fresh_world
              ("- name: measure_0" +:+ String LF "" +:+ "  expr: SUM(x)"))
    as (saved_file & stored & w' & Hrun & _ & Hstored & _).
  { reflexivity. }
  { apply fresh_world_has_folder. }
  exists saved_file, stored, w'. split; [exact Hrun|]. split; [|exact Hstored].
  vm_compute in Hrun. by injection Hrun as <- _.
Defined.

Lemma failed_worker_writes_nothing_witness :
  files (snd (process_metrics_batch env_down "Batch 1" [total_orders] 1
                                    fresh_world))
  = files fresh_world.
Proof.
  apply (failed_worker_writes_nothing env_down "Batch 1" [total_orders] 1
           fresh_world (Exn Exception "Connection refused")).
  reflexivity.
Defined.


Lemma combine_frame_with_folder (E : env) (output_folder : string)
      (w : world) (path : string) :
  output_folder ∈ dirs w ->
  path <> os_path_join output_folder (combined_name (clock E (now_calls w))) ->
  files (snd (combine_all_results E output_folder w)) !! path
  = files w !! path.
Proof.
  intros Hdir.
  set (combined_filepath :=
         os_path_join output_folder (combined_name (clock E (now_calls w)))).
  intros Hpath.
  unfold combine_all_results, bind at 1, glob at 1.
  fold (result_files_of output_folder w).
  destruct (result_files_of output_folder w) as [|first others] eqn:Hfiles;
    [done|].
  rewrite <- Hfiles.
  unfold bind at 1, datetime_now at 1.
  fold combined_filepath.
  unfold bind at 1, write_file at 1. simpl dirs.
  rewrite bool_decide_eq_true_2 by done.
  unfold bind at 1, datetime_now at 1. simpl now_calls.
  unfold bind at 1, file_append at 1. simpl files.
  rewrite lookup_insert_eq, insert_insert_eq. simpl default.
  rewrite append_nil_l. simpl dirs. simpl now_calls. simpl llm_calls.
  set (header := combined_header (clock E (S (now_calls w)))
                   (length (result_files_of output_folder w))).
  set (w1 := {| dirs := dirs w;
                files := <[combined_filepath := header]> (files w);
                now_calls := S (S (now_calls w));
                llm_calls := llm_calls w |}).
  assert (Hstored : Forall (fun p => p <> combined_filepath
                                     /\ is_Some (files w1 !! p))
                           (result_files_of output_folder w)).
  { apply Forall_forall. intros p Hin.
    apply result_files_of_stored in Hin as [Hmatch Hsome].
    assert (p <> combined_filepath) as Hp.
    { intros ->. subst combined_filepath.
      by rewrite combined_not_artifact in Hmatch. }
    split; [done|]. simpl. by rewrite lookup_insert_ne. }
  destruct (combine_loop_total (result_files_of output_folder w) 1
              combined_filepath header 0 w1)
    as (body & w2 & Hloop & Hnow & Hcomb & Hother);
    [apply lookup_insert_eq|done|].
  unfold bind at 1. rewrite Hloop.
  unfold bind at 1, datetime_now at 1.
  unfold bind at 1, file_append at 1. unfold ret. cbn [snd files].
  rewrite lookup_insert_ne; [|done].
  rewrite Hother; [|done]. subst w1. cbn [files].
  by rewrite lookup_insert_ne.
Qed.

(** X8: The combiner writes the combined file and nothing else: every other
    file, each artifact among them, is afterwards as it was. *)
Theorem combine_writes_only_combined_file (E : env) (output_folder : string)
        (w : world) (path : string) :
  path <> os_path_join output_folder (combined_name (clock E (now_calls w))) ->
  files (snd (combine_all_results E output_folder w)) !! path
  = files w !! path.
Proof.
  intros Hpath.
  destruct (decide (output_folder ∈ dirs w)) as [Hdir|Hdir].
  - by apply combine_frame_with_folder.
  - unfold combine_all_results, bind at 1, glob at 1.
    destruct (py_sorted String.leb _) as [|first others]; [done|].
    unfold bind at 1, datetime_now at 1.
    unfold bind at 1, write_file at 1. cbn [dirs].
    by rewrite bool_decide_eq_false_2 by done.
Qed.

(** X7: What the combiner reports: when the folder holds artifacts, the call
    returns the path of the combined file, and the summary line of that
    file gives the number of artifacts and, as total, the number of their
    lines with ['name:'] in them. *)
Theorem combine_summary_counts_marks (E : env) (output_folder : string)
        (w : world) :
  output_folder ∈ dirs w ->
  result_files_of output_folder w <> [] ->
  exists body w',
    combine_all_results E output_folder w
    = (Ok (Some (os_path_join output_folder
                   (combined_name (clock E (now_calls w))))), w')
    /\ files w'
         !! os_path_join output_folder
              (combined_name (clock E (now_calls w)))
       = Some (combined_header (clock E (S (now_calls w)))
                 (length (result_files_of output_folder w))
               +:+ body
               +:+ combined_footer
                     (sum_list (marks_in w
                                  <$> result_files_of output_folder w))
                     (length (result_files_of output_folder w))
                     (clock E (S (S (now_calls w))))).
Proof.
  intros Hdir Hne.
  exact (combine_reports_marks E output_folder w Hdir Hne).
Qed.

(** ** More on the reader *)

Lemma simplify_measures_complete (py_str : json -> string)
      (measures : list json) :
  forall acc out,
    Forall complete acc ->
    simplify_measures py_str measures acc = Ok out ->
    Forall complete out.
Proof.
  induction measures as [|m measures IH]; intros acc out Hacc; simpl.
  - by intros [= <-].
  - destruct (py_get m "name" (JStr "")) as [nm|]; [|done].
    destruct (py_get m "expression" (JStr "")) as [ex|]; [|done].
    destruct (_format_expression py_str ex) as [fe|]; [|done].
    destruct (truthy nm && nonempty fe) eqn:Hkeep; [|by apply IH].
    apply IH. apply Forall_app. split; [done|].
    apply andb_true_iff in Hkeep as [Hnm Hfe].
    repeat constructor; simpl; [done|]. by apply nonempty_true.
Qed.

(** X12: Every record that [read_metrics_to_simple_json] returns has a truthy
    name and a non-empty expression. *)
Theorem reader_records_complete (py_str : json -> string)
        (file_path : string) (loaded : load_outcome)
        (simplified : list metric) :
  read_metrics_to_simple_json py_str file_path loaded = Ok simplified ->
  Forall complete simplified.
Proof.
  unfold read_metrics_to_simple_json.
  destruct (read_body py_str loaded) as [out|e] eqn:Hbody.
  - intros [= <-]. unfold read_body in Hbody.
    destruct loaded as [| |data]; try done.
    destruct (py_get data "measures" (JList [])) as [measures|]; [|done].
    destruct (py_iter measures) as [items|]; [|done].
    by eapply simplify_measures_complete; [constructor|exact Hbody].
  - by destruct (exn_class e).
Qed.

Lemma simplify_measures_names (py_str : json -> string)
      (measures : list json) :
  forall acc out,
    simplify_measures py_str measures acc = Ok out ->
    exists kept,
      out = acc ++ kept
      /\ sublist (name <$> kept) (measure_name <$> measures)
      /\ Forall (fun m => exists measure f,
                     measure ∈ measures
                     /\ name m = measure_name measure
                     /\ _format_expression py_str
                          (match measure with
                           | JDict pairs =>
                               default (JStr "")
                                       (dict_lookup pairs "expression")
                           | _ => JNull
                           end) = Ok f
                     /\ expression m = f) kept.
Proof.
  induction measures as [|m measures IH]; intros acc out; simpl.
  - intros [= <-]. exists []. rewrite app_nil_r. repeat split; constructor.
  - destruct m as [| | | | | |pairs]; try done. simpl.
    destruct (_format_expression py_str
                (default (JStr "") (dict_lookup pairs "expression")))
      as [fe|] eqn:Hfe; [|done].
    destruct (truthy _ && nonempty fe) eqn:Hkeep.
    + intros Hrun. destruct (IH _ _ Hrun) as (kept & -> & Hsub & Hall).
      exists ({| name := default (JStr "") (dict_lookup pairs "name");
                 expression := fe |} :: kept).
      split; [by rewrite <- app_assoc|]. split.
      * rewrite fmap_cons. simpl. by apply sublist_skip.
      * constructor.
        -- exists (JDict pairs), fe. repeat split; [left|done].
        -- eapply Forall_impl; [exact Hall|]. simpl.
           intros r (measure & f & Hin & H1 & H2 & H3).
           exists measure, f. repeat split; try done. by right.
    + intros Hrun. destruct (IH _ _ Hrun) as (kept & -> & Hsub & Hall).
      exists kept. split; [done|]. split.
      * by apply sublist_cons.
      * eapply Forall_impl; [exact Hall|]. simpl.
        intros r (measure & f & Hin & H1 & H2 & H3).
        exists measure, f. repeat split; try done. by right.
Qed.

(** X13: The records returned are taken from the measures of the file, in the
    order of the file: their names are a sub-list of the names of the
    measures, and each record is the name of one measure with that
    measure's expression formatted. *)
Theorem reader_keeps_order (py_str : json -> string) (file_path : string)
        (data : json) (measures : list json) (simplified : list metric) :
  py_get data "measures" (JList []) = Ok (JList measures) ->
  read_metrics_to_simple_json py_str file_path (Loaded data) = Ok simplified ->
  sublist (name <$> simplified) (measure_name <$> measures)
  /\ Forall (fun m => exists measure,
                 measure ∈ measures
                 /\ name m = measure_name measure
                 /\ _format_expression py_str (measure_expression measure)
                    = Ok (expression m)) simplified.
Proof.
  intros Hget. unfold read_metrics_to_simple_json, read_body.
  rewrite Hget. simpl.
  destruct (simplify_measures py_str measures []) as [out|e] eqn:Hrun.
  - intros [= <-].
    destruct (simplify_measures_names py_str measures [] out Hrun)
      as (kept & -> & Hsub & Hall).
    split; [done|]. simpl.
    eapply Forall_impl; [exact Hall|]. simpl.
    intros m (measure & f & Hin & Hname & Hfmt & Hexpr).
    exists measure. unfold measure_expression. by rewrite Hexpr.
  - by destruct (exn_class e).
Qed.

Lemma reader_keeps_order_witness :
  sublist
    [JStr "Total"; JBool true]
    (measure_name
       <$> [JDict [("name", JStr "Total"); ("expression", JStr " SUM(x) ")];
            JDict [("expression", JStr "SUM(y)")];
            JDict [("name", JBool true);
                   ("expression", JList [JStr "A"; JStr " "; JStr "B "])]]).
Proof.
  destruct (reader_keeps_order (fun _ => EmptyString) "metrics.json"
              (JDict [("measures",
                 JList
                   [JDict [("name", JStr "Total");
                           ("expression", JStr " SUM(x) ")];
                    JDict [("expression", JStr "SUM(y)")];
                    JDict [("name", JBool true);
                           ("expression",
                            JList [JStr "A"; JStr " "; JStr "B "])]])])
              _
              [{| name := JStr "Total"; expression := "SUM(x)" |};
               {| name := JBool true; expression := "A B" |}]
              eq_refl eq_refl) as [Hsub _].
  exact Hsub.
Defined.

Lemma reader_records_complete_witness :
  Forall complete [{| name := JStr "Total"; expression := "SUM(x)" |}].
Proof.
  apply (reader_records_complete (fun _ => EmptyString) "metrics.json"
           (Loaded (JDict [("measures",
              JList [JDict [("name", JStr "Total");
                            ("expression", JStr " SUM(x) ")];
                     JDict [("name", JStr "")]])]))).
  reflexivity.
Defined.

(** ** Errors of the reader *)

Lemma clean_parts_raises (items : list json) (e : exn) :
  clean_parts items = Raise e -> exn_class e = AttributeError.
Proof.
  induction items as [|part items IH]; [done|]. simpl.
  destruct part; try by intros [= <-].
  destruct (nonempty (strip s)); [|done].
  destruct (clean_parts items); [done|]. intros [= <-]. by apply IH.
Qed.

Lemma format_expression_raises (py_str : json -> string) (v : json)
      (e : exn) :
  _format_expression py_str v = Raise e -> exn_class e = AttributeError.
Proof.
  destruct v; try done. simpl.
  destruct (clean_parts items) eqn:Hc; [done|].
  intros [= <-]. by eapply clean_parts_raises.
Qed.

Lemma py_get_raises (v : json) (key : string) (dflt : json) (e : exn) :
  py_get v key dflt = Raise e -> exn_class e = AttributeError.
Proof. destruct v; try done; by intros [= <-]. Qed.

Lemma simplify_measures_raises (py_str : json -> string)
      (measures : list json) :
  forall acc e,
    simplify_measures py_str measures acc = Raise e ->
    exn_class e = AttributeError.
Proof.
  induction measures as [|m measures IH]; intros acc e; [done|]. simpl.
  destruct (py_get m "name" (JStr "")) as [nm|e1] eqn:H1.
  2:{ intros [= <-]. by eapply py_get_raises. }
  destruct (py_get m "expression" (JStr "")) as [ex|e2] eqn:H2.
  2:{ intros [= <-]. by eapply py_get_raises. }
  destruct (_format_expression py_str ex) as [fe|e3] eqn:H3.
  2:{ intros [= <-]. by eapply format_expression_raises. }
  destruct (truthy nm && nonempty fe); apply IH.
Qed.

Lemma read_body_raises (py_str : json -> string) (data : json) (e : exn) :
  read_body py_str (Loaded data) = Raise e -> attribute_or_type e.
Proof.
  unfold read_body.
  destruct (py_get data "measures" (JList [])) as [measures|e1] eqn:H1.
  2:{ intros [= <-]. left. by eapply py_get_raises. }
  destruct (py_iter measures) as [items|e2] eqn:H2.
  2:{ intros [= <-]. right. destruct measures; try done;
        by injection H2 as <-. }
  intros H. left. by eapply simplify_measures_raises.
Qed.

(** X14: The three handlers of [read_metrics_to_simple_json]: a missing file is
    reported as [FileNotFoundError] and text that is not JSON as
    [ValueError], each naming the file; whatever goes wrong with a file that
    did parse (a top level or a measure that is not an object, measures
    that cannot be iterated, a fragment that is not a string) is reported as
    a plain [Exception] whose text starts with "Error reading metrics
    file: ". *)
Theorem reader_errors (py_str : json -> string) (file_path : string) :
  read_metrics_to_simple_json py_str file_path NoSuchFile
  = Raise (Exn FileNotFoundError ("Metrics file not found: " +:+ file_path))
  /\ (forall msg,
        read_metrics_to_simple_json py_str file_path (NotJSON msg)
        = Raise (Exn ValueError
                     ("Invalid JSON format in " +:+ file_path +:+ ": "
                      +:+ msg)))
  /\ (forall data e,
        read_metrics_to_simple_json py_str file_path (Loaded data) = Raise e ->
        exists cause,
          attribute_or_type cause
          /\ e = Exn Exception
                     ("Error reading metrics file: " +:+ exn_str cause)).
Proof.
  split; [done|]. split; [done|].
  intros data e. unfold read_metrics_to_simple_json.
  destruct (read_body py_str (Loaded data)) as [out|cause] eqn:Hbody; [done|].
  pose proof (read_body_raises py_str data cause Hbody) as Hcause.
  intros Hraise. exists cause. split; [done|].
  destruct Hcause as [Hc|Hc]; rewrite Hc in Hraise; by injection Hraise as <-.
Qed.

Lemma reader_errors_witness :
  read_metrics_to_simple_json (fun _ => EmptyString) "metrics.json"
    (Loaded (JDict [("measures", JList [JDict [("name", JStr "Total");
                                                ("expression",
                                                 JList [JInt 1])]])]))
  = Raise (Exn Exception
               "Error reading metrics file: 'int' object has no attribute 'strip'").
Proof.
  destruct (reader_errors (fun _ => EmptyString) "metrics.json")
    as (_ & _ & Hloaded).
  destruct (Hloaded
              (JDict [("measures", JList [JDict [("name", JStr "Total");
                                                  ("expression",
                                                   JList [JInt 1])]])])
              _ eq_refl) as (cause & _ & _).
  reflexivity.
Defined.

Lemma lstrip_fixed (t : string) : not_space (first_char t) -> lstrip t = t.
Proof. destruct t as [|c t]; [done|]. simpl. by intros ->. Qed.

Lemma rstrip_fixed (t : string) : not_space (last_char t) -> rstrip t = t.
Proof.
  induction t as [|c t IH]; [done|]. simpl.
  destruct (last_char t) as [d|] eqn:Hlast.
  - intros Hd. rewrite IH by done.
    destruct t as [|c' t']; [done|]. simpl. by rewrite andb_false_r.
  - intros Hc. destruct t as [|c' t'].
    + simpl. by rewrite Hc.
    + simpl in Hlast. by destruct (last_char t').
Qed.

Lemma strip_fixed (t : string) : trimmed t -> strip t = t.
Proof.
  intros [Hfirst Hlast]. unfold strip.
  rewrite lstrip_fixed by done. by apply rstrip_fixed.
Qed.

Lemma strip_trimmed (s : string) : trimmed (strip s).
Proof. by destruct (strip_trims s) as (_ & _ & _ & _ & _ & ? & ?). Qed.

Lemma first_char_append (a b : string) :
  nonempty a = true -> first_char (a +:+ b) = first_char a.
Proof. by destruct a. Qed.

Lemma last_char_append (a b : string) :
  nonempty b = true -> last_char (a +:+ b) = last_char b.
Proof.
  intros Hb. induction a as [|c a IH]; [done|].
  rewrite append_cons. simpl. rewrite IH.
  destruct b as [|d b]; [done|]. simpl. by destruct (last_char b).
Qed.

Lemma nonempty_append_l (a b : string) :
  nonempty a = true -> nonempty (a +:+ b) = true.
Proof. by destruct a. Qed.

Lemma concat_trimmed (parts : list string) :
  Forall (fun p => nonempty p = true /\ trimmed p) parts ->
  trimmed (String.concat " " parts)
  /\ (parts <> [] -> nonempty (String.concat " " parts) = true).
Proof.
  induction 1 as [|p parts [Hp [Hfirst Hlast]] Hparts IH].
  - by split.
  - destruct parts as [|q parts].
    + simpl. by repeat split.
    + destruct IH as [[_ IHlast] IHne]. specialize (IHne ltac:(done)).
      change (String.concat " " (p :: q :: parts))
        with (p +:+ " " +:+ String.concat " " (q :: parts)).
      split; [split|].
      * by rewrite first_char_append.
      * rewrite last_char_append; [|done].
        by rewrite last_char_append.
      * intros _. by apply nonempty_append_l.
Qed.

Lemma clean_parts_trimmed (items : list json) (parts : list string) :
  clean_parts items = Ok parts ->
  Forall (fun p => nonempty p = true /\ trimmed p) parts.
Proof.
  revert parts. induction items as [|part items IH]; intros parts; simpl.
  - intros [= <-]. constructor.
  - destruct part; try done.
    destruct (nonempty (strip s)) eqn:Hs; [|by apply IH].
    destruct (clean_parts items) as [rest|]; [|done].
    intros [= <-]. constructor; [|by apply IH].
    split; [done|apply strip_trimmed].
Qed.

(** X15: Formatting settles: the text that [_format_expression] gives for a
    string or for a list of fragments has no whitespace at either end, and
    formatting that text again, as a string or as a list of one fragment,
    gives it back unchanged. *)
Theorem format_expression_settles (py_str : json -> string)
        (expression : json) (out : string) :
  (exists s, expression = JStr s) \/ (exists items, expression = JList items) ->
  _format_expression py_str expression = Ok out ->
  trimmed out
  /\ _format_expression py_str (JStr out) = Ok out
  /\ _format_expression py_str (JList [JStr out]) = Ok out.
Proof.
  intros Hshape Hfmt.
  assert (Hout : trimmed out).
  { destruct Hshape as [[s ->]|[items ->]]; simpl in Hfmt.
    - injection Hfmt as <-. apply strip_trimmed.
    - destruct (clean_parts items) as [parts|] eqn:Hparts; [|done].
      injection Hfmt as <-.
      by apply concat_trimmed, (clean_parts_trimmed items). }
  split; [done|]. simpl. rewrite (strip_fixed out Hout).
  split; [done|]. by destruct out.
Qed.

Lemma format_expression_settles_witness :
  _format_expression (fun _ => EmptyString) (JStr "SUM(Revenue) / SUM(Quantity)")
  = Ok "SUM(Revenue) / SUM(Quantity)".
Proof.
  destruct (format_expression_settles (fun _ => EmptyString)
              (JList [JStr "SUM(Revenue)"; JStr "";
                      JStr "  / SUM(Quantity) "])
              "SUM(Revenue) / SUM(Quantity)") as (_ & Hagain & _).
  - right. by eexists.
  - reflexivity.
  - exact Hagain.
Defined.

(** ** Skipping the header *)








(** ** The entry point *)

(** X16: When the metrics cannot be read the entry point stops there, with the
    reader's exception, before anything is asked of the translator or
    written; and when the file yields no metric at all it does not reach
    its summary either: the orchestrator is called with no batch and the run
    ends in [ZeroDivisionError], with nothing written. *)
Theorem main_without_metrics (E : env) (py_str : json -> string)
        (loaded : load_outcome) (run_picks done_picks : list nat)
        (w : world) :
  (forall e,
      read_metrics_to_simple_json py_str "aas_metrics/metrics.json" loaded
      = Raise e ->
      main E py_str loaded run_picks done_picks w = (Raise e, w))
  /\ (read_metrics_to_simple_json py_str "aas_metrics/metrics.json" loaded
      = Ok [] ->
      main E py_str loaded run_picks done_picks w
      = (Raise (Exn ZeroDivisionError "float division by zero"), w)).
Proof.
  split.
  - intros e Hread. unfold main, bind at 1, lift at 1. by rewrite Hread.
  - intros Hread. unfold main, bind at 1, lift at 1. rewrite Hread.
    unfold bind at 1, lift at 1. cbn [create_batches length].
    change (create_batches [] BATCH_SIZE) with (@Ok (list (list metric)) []).
    cbv beta iota. unfold bind at 1.
    unfold process_batches_parallel. simpl.
    by rewrite pick_order_nil.
Qed.

Lemma main_without_metrics_witness :
  main env_ok (fun _ => EmptyString)
       (Loaded (JDict [("model", JStr "sales")])) [] [] fresh_world
  = (Raise (Exn ZeroDivisionError "float division by zero"), fresh_world).
Proof.
  destruct (main_without_metrics env_ok (fun _ => EmptyString)
              (Loaded (JDict [("model", JStr "sales")])) [] [] fresh_world)
    as [_ Hempty].
  apply Hempty. reflexivity.
Defined.

Lemma worker_keeps_dirs (E : env) (batch_name : string)
      (metrics_data : list metric) (thread_id : nat) (w : world) :
  dirs (snd (process_metrics_batch E batch_name metrics_data thread_id w))
  = dirs w.
Proof.
  destruct (chain_invoke E (llm_calls w) (json_dumps E metrics_data))
    as [text|e] eqn:Hchain.
  - destruct (decide (OUTPUT_FOLDER ∈ dirs w)) as [Hdir|Hdir].
    + by rewrite (worker_success E batch_name metrics_data thread_id w text
                    Hchain Hdir).
    + by destruct (worker_no_folder E batch_name metrics_data thread_id w
                     text Hchain Hdir) as [e ->].
  - by rewrite (worker_translator_down E batch_name metrics_data thread_id w
                  e Hchain).
Qed.

Lemma run_workers_keeps_dirs (E : env) (turns : list task) (w : world) :
  dirs (run_workers E turns w).2 = dirs w.
Proof.
  revert w. induction turns as [|t turns IH]; intros w; [done|].
  cbn [run_workers].
  pose proof (worker_keeps_dirs E (task_name t) (task_data t) (task_num t) w)
    as Hw.
  destruct (process_metrics_batch _ _ _ _ _) as [r w1].
  specialize (IH w1). destruct (run_workers E turns w1) as [fs w2].
  simpl in *. congruence.
Qed.

Lemma combine_returns (E : env) (output_folder : string) (w : world) :
  output_folder ∈ dirs w ->
  exists r w', combine_all_results E output_folder w = (Ok r, w').
Proof.
  intros Hdir.
  destruct (result_files_of output_folder w) as [|p ps] eqn:Hfiles.
  - exists None, w. unfold combine_all_results, bind at 1, glob at 1.
    fold (result_files_of output_folder w). by rewrite Hfiles.
  - destruct (combine_reports_marks E output_folder w Hdir)
      as (body & w' & Hrun & _); [by rewrite Hfiles|].
    eauto.
Qed.

Lemma split_by_failure (rs : list outcome) :
  (length (filter (fun r => failed r = false) rs)
   + length (filter (fun r => failed r = true) rs))%nat = length rs.
Proof.
  induction rs as [|r rs IH]; [done|].
  destruct (failed r) eqn:Hr.
  - rewrite filter_cons_False, filter_cons_True by congruence.
    simpl. lia.
  - rewrite filter_cons_True, filter_cons_False by congruence.
    simpl. lia.
Qed.

Lemma counts_of_futures (E : env) (fs : list future) :
  Forall (ran E) fs ->
  let rs := collect <$> fs in
  let units := sum_list ((fun f => length (task_data (submitted f))) <$> fs) in
  (sum_list (count <$> filter (fun r => failed r = false) rs) <= units)%nat
  /\ (filter (fun r => failed r = true) rs = [] ->
      sum_list (count <$> filter (fun r => failed r = false) rs) = units)
  /\ (filter (fun r => failed r = false) rs = [] ->
      sum_list (count <$> filter (fun r => failed r = false) rs) = 0%nat).
Proof.
  induction 1 as [|f fs Hf _ IH]; [done|].
  cbv zeta in *. destruct IH as (IH1 & IH2 & IH3).
  rewrite !fmap_cons. pose proof (collect_count E f Hf) as Hcount.
  destruct (failed (collect f)) eqn:Hfail.
  - rewrite filter_cons_False, filter_cons_True by congruence.
    cbn [sum_list sum_list_with]. repeat split; [lia|done|done].
  - rewrite filter_cons_True, filter_cons_False by congruence.
    rewrite fmap_cons. cbn [sum_list sum_list_with]. rewrite Hcount.
    repeat split; [lia| |done].
    intros Hnone. rewrite (IH2 Hnone). done.
Qed.

Lemma create_batches_of_some {A} (units : list A) :
  units <> [] ->
  exists batches,
    create_batches units BATCH_SIZE = Ok batches
    /\ batches <> []
    /\ concat batches = units
    /\ Z.of_nat (length batches) = (Z.of_nat (length units) + 4) / 5.
Proof.
  intros Hne. unfold BATCH_SIZE.
  rewrite create_batches_chunks by lia.
  set (n := Z.of_nat (length units)).
  assert (Hn : 1 <= n) by (subst n; destruct units; [done|simpl; lia]).
  replace (n + 5 - 1) with (n + 4) by lia.
  assert (Hq : 1 <= (n + 4) / 5).
  { apply Z.div_le_lower_bound; lia. }
  assert (Hcover : n <= 5 * ((n + 4) / 5)).
  { pose proof (Z.mod_pos_bound (n + 4) 5 ltac:(lia)).
    pose proof (Z.div_mod (n + 4) 5 ltac:(lia)). lia. }
  eexists. split; [reflexivity|]. split; [|split].
  - intros Hnil. apply (f_equal length) in Hnil.
    rewrite length_map, length_seq in Hnil. simpl in Hnil. lia.
  - rewrite concat_chunks. apply take_ge. subst n. lia.
  - rewrite length_map, length_seq. lia.
Qed.

(** X17: With the output folder in place and at least one metric read, the entry
    point reaches its summary: the batches listed as successful and as
    failed are together [ceil(n / 5)], one per batch of five metrics; the
    total of metrics it reports is the sum over the successful batches,
    never more than the [n] metrics read and exactly [n] when no batch
    failed; and when no batch succeeded nothing is combined. *)
Theorem main_summary (E : env) (py_str : json -> string)
        (loaded : load_outcome) (run_picks done_picks : list nat)
        (w : world) (all_metrics : list metric) :
  read_metrics_to_simple_json py_str "aas_metrics/metrics.json" loaded
  = Ok all_metrics ->
  all_metrics <> [] ->
  OUTPUT_FOLDER ∈ dirs w ->
  exists s w',
    main E py_str loaded run_picks done_picks w = (Ok s, w')
    /\ Z.of_nat (length (successful_batches s) + length (failed_batches s))
       = (Z.of_nat (length all_metrics) + 4) / 5
    /\ total_metrics s = sum_list (count <$> successful_batches s)
    /\ (total_metrics s <= length all_metrics)%nat
    /\ (failed_batches s = [] -> total_metrics s = length all_metrics)
    /\ (successful_batches s = [] ->
        combined_file s = None /\ total_metrics s = 0%nat).
Proof.
  intros Hread Hsome Hdir.
  destruct (create_batches_of_some all_metrics Hsome)
    as (batches & Hsplit & Hne & Hcat & Hlen).
  destruct (process_batches_parallel_futures E run_picks done_picks batches
              MAX_WORKERS w Hne ltac:(unfold MAX_WORKERS; lia))
    as (futures & w1 & Hrun & Hsub & Hran).
  assert (Hdir1 : OUTPUT_FOLDER ∈ dirs w1).
  { pose proof (process_batches_parallel_run E run_picks done_picks batches
                  MAX_WORKERS w Hne ltac:(unfold MAX_WORKERS; lia)) as Hrun'.
    cbv zeta in Hrun'. rewrite Hrun in Hrun'. injection Hrun' as _ ->.
    by rewrite run_workers_keeps_dirs. }
  assert (Hunits : sum_list ((fun f => length (task_data (submitted f)))
                               <$> futures)
                   = length all_metrics).
  { rewrite <- Hcat, length_concat_sum.
    rewrite <- (submit_all_data 1 batches), <- Hsub.
    by rewrite <- !list_fmap_compose. }
  destruct (counts_of_futures E futures Hran) as (Hle & Hall & Hnone).
  rewrite Hunits in Hle, Hall.
  assert (Hcount : Z.of_nat
                     (length (filter (fun r => failed r = false)
                                     (collect <$> futures))
                      + length (filter (fun r => failed r = true)
                                       (collect <$> futures)))
                   = (Z.of_nat (length all_metrics) + 4) / 5).
  { rewrite split_by_failure, length_fmap, <- Hlen.
    apply (f_equal length) in Hsub. rewrite length_fmap in Hsub.
    pose proof (f_equal length (submit_all_nums 1 batches)) as Hn.
    rewrite length_fmap, length_seq in Hn. lia. }
  unfold main, bind at 1, lift at 1. rewrite Hread.
  unfold bind at 1, lift at 1. rewrite Hsplit.
  unfold bind at 1. rewrite Hrun.
  destruct (filter (fun r => failed r = false) (collect <$> futures))
    as [|r rs] eqn:Hgood.
  - eexists _, w1. split; [reflexivity|]. cbn [successful_batches
      failed_batches total_metrics combined_file].
    repeat split; try done; try (intros Hbad; by apply Hall).
  - destruct (combine_returns E OUTPUT_FOLDER w1 Hdir1) as (c & w2 & Hcomb).
    unfold bind at 1. rewrite Hcomb.
    eexists _, w2. split; [reflexivity|]. cbn [successful_batches
      failed_batches total_metrics combined_file].
    repeat split; try done; try (intros Hbad; by apply Hall).
Qed.

Lemma main_summary_witness :
  exists s w',
    main env_ok (fun _ => EmptyString)
         (Loaded (JDict [("measures",
            JList [JDict [("name", JStr "Total Orders");
                          ("expression", JStr "SUM('FactSales'[OrderCount])")]])]))
         [] [] fresh_world
    = (Ok s, w')
    /\ total_metrics s = 1%nat.
Proof.
  destruct (main_summary env_ok (fun _ => EmptyString)
              (Loaded (JDict [("measures",
                 JList [JDict [("name", JStr "Total Orders");
                               ("expression",
                                JStr "SUM('FactSales'[OrderCount])")]])]))
              [] [] fresh_world [total_orders])
    as (s & w' & Hrun & _ & _ & _ & Hall & _).
  { reflexivity. }
  { done. }
  { apply fresh_world_has_folder. }
  exists s, w'. split; [exact Hrun|].
  apply Hall. vm_compute in Hrun. by injection Hrun as <- _.
Defined.

(** ** The combiner at work *)

Lemma harvest_world_has_folder : OUTPUT_FOLDER ∈ dirs harvest_world.
Proof. unfold harvest_world. cbn [dirs]. set_solver. Qed.

Lemma combine_summary_counts_marks_witness :
  exists body w',
    combine_all_results env_ok OUTPUT_FOLDER harvest_world
    = (Ok (Some "uc_converted_metrics/combined_all_metrics_20240102_030400.txt"),
       w')
    /\ files w'
         !! "uc_converted_metrics/combined_all_metrics_20240102_030400.txt"
       = Some (combined_header (ticking 1) 2 +:+ body
               +:+ combined_footer 3 2 (ticking 2)).
Proof.
  destruct (combine_summary_counts_marks env_ok OUTPUT_FOLDER harvest_world)
    as (body & w' & Hrun & Hfile).
  { apply harvest_world_has_folder. }
  { vm_compute. discriminate. }
  exists body, w'. split; [exact Hrun|].
  replace (sum_list (marks_in harvest_world
                       <$> result_files_of OUTPUT_FOLDER harvest_world))
    with 3%nat in Hfile by (vm_compute; reflexivity).
  replace (length (result_files_of OUTPUT_FOLDER harvest_world))
    with 2%nat in Hfile by (vm_compute; reflexivity).
  exact Hfile.
Defined.

Lemma combine_writes_only_combined_file_witness :
  files (snd (combine_all_results env_ok OUTPUT_FOLDER harvest_world))
    !! "uc_converted_metrics/converted_metrics_20240102_030402.txt"
  = files harvest_world
      !! "uc_converted_metrics/converted_metrics_20240102_030402.txt".
Proof.
  apply (combine_writes_only_combined_file env_ok OUTPUT_FOLDER
           harvest_world).
  vm_compute. discriminate.
Defined.


Lemma units_reach_combined_total_witness :
  exists all_results w1 combined w2 body,
    process_batches_parallel env_ok [1%nat] [] [[total_orders]; [total_amount]]
                             4 fresh_world
    = (Ok all_results, w1)
    /\ sum_list (count <$> all_results) = 2%nat
    /\ combine_all_results env_ok OUTPUT_FOLDER w1 = (Ok (Some combined), w2)
    /\ files w2 !! combined
       = Some (combined_header (clock env_ok (S (now_calls w1))) 2
               +:+ body
               +:+ combined_footer 2 2 (clock env_ok (S (S (now_calls w1))))).
Proof.
  destruct (units_reach_combined_total env_ok [1%nat] []
              [[total_orders]; [total_amount]] 4 fresh_world)
    as (all_results & w1 & combined & w2 & body
        & Hrun & _ & Hsum & Hcombine & Hfile).
  { done. }
  { lia. }
  { apply fresh_world_has_folder. }
  { intros path _. apply lookup_empty. }
  { intros j batch Hj Hbatch. eexists. split; [reflexivity|].
    apply elem_of_cons in Hbatch as [->|Hbatch].
    - destruct j as [|[|j]]; [reflexivity|reflexivity|simpl in Hj; lia].
    - apply elem_of_cons in Hbatch as [->|Hbatch].
      + destruct j as [|[|j]]; [reflexivity|reflexivity|simpl in Hj; lia].
      + by apply elem_of_nil in Hbatch. }
  { apply (bool_decide_unpack _). vm_compute. exact I. }
  exists all_results, w1, combined, w2, body.
  split; [exact Hrun|]. split; [exact Hsum|]. split; [exact Hcombine|].
  exact Hfile.
Defined.

(** ** Names of artifacts *)

Lemma digit_value_char (d : nat) :
  (d < 10)%nat -> digit_value (digit_char d) = d.
Proof.
  intros Hd.
  destruct d as [|[|[|[|[|[|[|[|[|[|d]]]]]]]]]]; try reflexivity. lia.
Qed.

Lemma number_from_append (value : nat) (a b : string) :
  number_from value (a +:+ b) = number_from (number_from value a) b.
Proof.
  revert value. induction a as [|c a IH]; intros value; [done|].
  rewrite append_cons. simpl. apply IH.
Qed.

Lemma length_append (a b : string) :
  String.length (a +:+ b) = (String.length a + String.length b)%nat.
Proof.
  induction a as [|c a IH]; [done|]. rewrite append_cons. simpl.
  by rewrite IH.
Qed.

Lemma str_of_nat_aux_acc (fuel n : nat) (acc : string) :
  str_of_nat_aux fuel n acc = str_of_nat_aux fuel n EmptyString +:+ acc.
Proof.
  revert n acc. induction fuel as [|fuel IH]; intros n acc; [done|].
  cbn [str_of_nat_aux]. destruct (n / 10 =? 0)%nat; [done|].
  rewrite (IH _ (String _ acc)), (IH _ (String _ EmptyString)).
  by rewrite append_assoc.
Qed.

Lemma str_of_nat_aux_small (fuel n : nat) :
  (n < 10)%nat ->
  str_of_nat_aux fuel n EmptyString = String (digit_char n) EmptyString.
Proof.
  intros Hn. rewrite <- (Nat.mod_small n 10) at 2 by done.
  destruct fuel as [|fuel]; [done|]. cbn [str_of_nat_aux].
  by rewrite (Nat.div_small n 10).
Qed.

Lemma str_of_nat_aux_large (fuel n : nat) :
  (10 <= n)%nat ->
  str_of_nat_aux (S fuel) n EmptyString
  = str_of_nat_aux fuel (n / 10) EmptyString
    +:+ String (digit_char (n mod 10)) EmptyString.
Proof.
  intros Hn. cbn [str_of_nat_aux].
  destruct (Nat.eqb_spec (n / 10) 0) as [Hz|_].
  - apply Nat.div_small_iff in Hz; lia.
  - apply str_of_nat_aux_acc.
Qed.

Lemma number_of_str_aux (fuel : nat) :
  forall n, (n <= fuel)%nat ->
    number_from 0 (str_of_nat_aux fuel n EmptyString) = n.
Proof.
  induction fuel as [|fuel IH]; intros n Hn.
  - assert (n = 0%nat) as -> by lia. reflexivity.
  - destruct (Nat.lt_ge_cases n 10) as [Hsmall|Hlarge].
    + rewrite str_of_nat_aux_small by done. cbn [number_from].
      rewrite digit_value_char by done. lia.
    + rewrite str_of_nat_aux_large by done.
      rewrite number_from_append, IH.
      * cbn [number_from].
        rewrite digit_value_char by (apply Nat.mod_upper_bound; lia).
        pose proof (Nat.div_mod_eq n 10). lia.
      * pose proof (Nat.div_lt n 10). lia.
Qed.

Lemma length_str_aux (k : nat) :
  forall fuel n, (n <= fuel)%nat -> (n < 10 ^ S k)%nat ->
    (String.length (str_of_nat_aux fuel n EmptyString) <= S k)%nat.
Proof.
  induction k as [|k IH]; intros fuel n Hfuel Hn.
  - rewrite str_of_nat_aux_small by (simpl in Hn; lia). simpl. lia.
  - destruct (Nat.lt_ge_cases n 10) as [Hsmall|Hlarge].
    + rewrite str_of_nat_aux_small by done. simpl. lia.
    + destruct fuel as [|fuel]; [lia|].
      rewrite str_of_nat_aux_large by done. rewrite length_append.
      cbn [String.length].
      assert (String.length (str_of_nat_aux fuel (n / 10) EmptyString)
              <= S k)%nat; [|lia].
      apply IH.
      * pose proof (Nat.div_lt n 10). lia.
      * apply Nat.Div0.div_lt_upper_bound.
        change (10 ^ S (S k))%nat with (10 * 10 ^ S k)%nat in Hn. lia.
Qed.

Lemma number_from_zeros (k : nat) (s : string) :
  number_from 0 (str_repeat "0" k +:+ s) = number_from 0 s.
Proof.
  induction k as [|k IH]; [done|]. cbn [str_repeat].
  rewrite append_assoc. exact IH.
Qed.

Lemma length_zeros (k : nat) : String.length (str_repeat "0" k) = k.
Proof.
  induction k as [|k IH]; [done|]. cbn [str_repeat].
  rewrite length_append, IH. done.
Qed.

Lemma zfill_number (width n : nat) :
  number_from 0 (zfill width (str_of_nat n)) = n.
Proof.
  unfold zfill. rewrite number_from_zeros.
  by apply number_of_str_aux.
Qed.

Lemma zfill_length (k n : nat) :
  (n < 10 ^ S k)%nat -> String.length (zfill (S k) (str_of_nat n)) = S k.
Proof.
  intros Hn. unfold zfill. rewrite length_append, length_zeros.
  pose proof (length_str_aux k n n ltac:(lia) Hn). unfold str_of_nat. lia.
Qed.

Lemma append_eq_split (a a' b b' : string) :
  String.length a = String.length a' ->
  a +:+ b = a' +:+ b' -> a = a' /\ b = b'.
Proof.
  revert a'. induction a as [|c a IH]; intros [|c' a']; try done.
  rewrite !append_cons. simpl. intros [= Hlen] [= -> Heq].
  destruct (IH a' Hlen Heq) as [-> ->]. done.
Qed.

Lemma pad_eq (k n n' : nat) (rest rest' : string) :
  (n < 10 ^ S k)%nat -> (n' < 10 ^ S k)%nat ->
  zfill (S k) (str_of_nat n) +:+ rest = zfill (S k) (str_of_nat n') +:+ rest' ->
  n = n' /\ rest = rest'.
Proof.
  intros Hn Hn' Heq. apply append_eq_split in Heq as [Hpad Hrest].
  - split; [|done].
    rewrite <- (zfill_number (S k) n), <- (zfill_number (S k) n').
    by rewrite Hpad.
  - by rewrite !zfill_length.
Qed.

(** X6: Two artifacts get the same name only when they are saved within the
    same second: for readings of the clock whose fields fit the stamp, equal
    names have the same year, month, day, hour, minute and second. *)
Theorem same_name_same_second (t1 t2 : datetime) :
  fits_stamp t1 -> fits_stamp t2 ->
  artifact_name t1 = artifact_name t2 ->
  year t1 = year t2 /\ month t1 = month t2 /\ day t1 = day t2
  /\ hour t1 = hour t2 /\ minute t1 = minute t2 /\ second t1 = second t2.
Proof.
  intros (Hy1 & Hmo1 & Hd1 & Hh1 & Hmi1 & Hs1)
         (Hy2 & Hmo2 & Hd2 & Hh2 & Hmi2 & Hs2) Hname.
  unfold artifact_name in Hname. apply append_inj in Hname.
  unfold strftime_compact, pad4, pad2 in Hname.
  rewrite !append_assoc in Hname.
  apply (pad_eq 3) in Hname as [Hy Hname]; [|done|done].
  apply (pad_eq 1) in Hname as [Hmo Hname]; [|done|done].
  apply (pad_eq 1) in Hname as [Hd Hname]; [|done|done].
  rewrite !append_cons, !append_nil_l in Hname. injection Hname as Hname.
  apply (pad_eq 1) in Hname as [Hh Hname]; [|done|done].
  apply (pad_eq 1) in Hname as [Hmi Hname]; [|done|done].
  apply (pad_eq 1) in Hname as [Hs _]; [|done|done].
  done.
Qed.

Lemma same_name_same_second_witness :
  second (within_a_second 0) = second (within_a_second 2).
Proof.
  destruct (same_name_same_second (within_a_second 0) (within_a_second 2))
    as (_ & _ & _ & _ & _ & Hs).
  - repeat split; apply Nat.ltb_lt; vm_compute; reflexivity.
  - repeat split; apply Nat.ltb_lt; vm_compute; reflexivity.
  - reflexivity.
  - exact Hs.
Defined.

(** ** Combining again *)

Lemma combine_loop_keeps_dirs (result_files : list string) :
  forall (i : nat) (combined_filepath : string) (total : nat) (w : world),
    dirs (snd (combine_loop i result_files combined_filepath total w))
    = dirs w.
Proof.
  induction result_files as [|file_path rest IH];
    intros i combined_filepath total w; [done|].
  cbn [combine_loop]. unfold bind at 1, file_append at 1.
  unfold bind at 1, read_file at 1. cbn [files dirs].
  destruct (_ !! file_path) as [stored|]; [|done].
  unfold bind at 1, file_append at 1.
  unfold bind at 1, file_append at 1.
  by rewrite IH.
Qed.

Lemma combine_keeps_dirs (E : env) (output_folder : string) (w : world) :
  dirs (snd (combine_all_results E output_folder w)) = dirs w.
Proof.
  unfold combine_all_results, bind at 1, glob at 1.
  destruct (py_sorted String.leb _) as [|first others]; [done|].
  unfold bind at 1, datetime_now at 1.
  unfold bind at 1, write_file at 1. cbn [dirs].
  destruct (bool_decide _); [|done].
  unfold bind at 1, datetime_now at 1.
  unfold bind at 1, file_append at 1.
  unfold bind at 1.
  match goal with
  | |- context [combine_loop ?i ?l ?c ?t ?w0] =>
      pose proof (combine_loop_keeps_dirs l i c t w0) as Hloop;
      destruct (combine_loop i l c t w0) as [[total|e] w2]
  end; [|done].
  unfold bind at 1, datetime_now at 1.
  unfold bind at 1, file_append at 1. unfold ret. done.
Qed.

Lemma result_files_same (output_folder : string) (w w' : world) :
  (forall path, glob_match output_folder path = true ->
                files w' !! path = files w !! path) ->
  result_files_of output_folder w' ≡ₚ result_files_of output_folder w.
Proof.
  intros Hsame. unfold result_files_of. rewrite !py_sorted_Permutation.
  apply NoDup_Permutation;
    try (apply NoDup_filter, NoDup_fst_map_to_list).
  intros x. rewrite !list_elem_of_filter.
  assert (Hkeys : forall m : gmap string string,
             x ∈ map fst (map_to_list m) <-> is_Some (m !! x)).
  { intros m. split.
    - intros Hin. apply list_elem_of_fmap in Hin as ([p v] & -> & Hin).
      apply elem_of_map_to_list in Hin. by exists v.
    - intros [v Hv]. apply list_elem_of_fmap. exists (x, v).
      split; [done|]. by apply elem_of_map_to_list. }
  rewrite !Hkeys. split; intros [Hx Hin]; (split; [done|]).
  - by rewrite <- Hsame.
  - by rewrite Hsame.
Qed.

(** X9: Combining again counts the same artifacts: the combined file of the
    first call is not taken for an artifact by the second, which finds as
    many files and as many lines with ['name:'] as the first did, and
    reports them in its summary. *)
Theorem combine_again_same_summary (E : env) (output_folder : string)
        (w : world) :
  output_folder ∈ dirs w ->
  result_files_of output_folder w <> [] ->
  let w1 := snd (combine_all_results E output_folder w) in
  let n := length (result_files_of output_folder w) in
  let total :=
    sum_list (marks_in w <$> result_files_of output_folder w) in
  exists body w2,
    combine_all_results E output_folder w1
    = (Ok (Some (os_path_join output_folder
                   (combined_name (clock E (now_calls w1))))), w2)
    /\ files w2
         !! os_path_join output_folder
              (combined_name (clock E (now_calls w1)))
       = Some (combined_header (clock E (S (now_calls w1))) n
               +:+ body
               +:+ combined_footer total n (clock E (S (S (now_calls w1))))).
Proof.
  intros Hdir Hne w1 n total.
  assert (Hsame : forall path, glob_match output_folder path = true ->
                               files w1 !! path = files w !! path).
  { intros path Hmatch. apply combine_frame_with_folder; [done|].
    intros ->. by rewrite combined_not_artifact in Hmatch. }
  pose proof (result_files_same output_folder w w1 Hsame) as Hperm.
  assert (Hn : length (result_files_of output_folder w1) = n)
    by by rewrite Hperm.
  assert (Htotal : sum_list (marks_in w1 <$> result_files_of output_folder w1)
                   = total).
  { subst total. rewrite Hperm.
    f_equal. apply Forall_fmap_ext_1, Forall_forall. intros path Hin.
    apply result_files_of_stored in Hin as [Hmatch _].
    unfold marks_in. by rewrite Hsame. }
  destruct (combine_reports_marks E output_folder w1)
    as (body & w2 & Hrun & Hfile).
  { subst w1. by rewrite combine_keeps_dirs. }
  { intros Hnil. rewrite Hnil in Hn. subst n.
    by destruct (result_files_of output_folder w). }
  rewrite Hn, Htotal in Hfile. by exists body, w2.
Qed.

Lemma combine_again_same_summary_witness :
  exists body w2,
    combine_all_results env_ok OUTPUT_FOLDER
      (snd (combine_all_results env_ok OUTPUT_FOLDER harvest_world))
    = (Ok (Some "uc_converted_metrics/combined_all_metrics_20240102_030403.txt"),
       w2)
    /\ files w2
         !! "uc_converted_metrics/combined_all_metrics_20240102_030403.txt"
       = Some (combined_header (ticking 4) 2 +:+ body
               +:+ combined_footer 3 2 (ticking 5)).
Proof.
  destruct (combine_again_same_summary env_ok OUTPUT_FOLDER harvest_world)
    as (body & w2 & Hrun & Hfile).
  { apply harvest_world_has_folder. }
  { vm_compute. discriminate. }
  exists body, w2. split.
  - rewrite Hrun. do 3 f_equal.
  - replace (sum_list (marks_in harvest_world
                         <$> result_files_of OUTPUT_FOLDER harvest_world))
      with 3%nat in Hfile by (vm_compute; reflexivity).
    replace (length (result_files_of OUTPUT_FOLDER harvest_world))
      with 2%nat in Hfile by (vm_compute; reflexivity).
    exact Hfile.
Defined.

(** ** The figure in the header *)

Lemma LF_is_linebreak : is_linebreak LF = true.
Proof. reflexivity. Qed.

Lemma lines_agree (text : string) :
  all_chars only_LF text = true ->
  Forall2 same_line (splitlines text) (keepends_lines text).
Proof.
  induction text as [|c r IH]; [constructor|].
  cbn [all_chars]. intros [Hc Hr]%andb_true_iff. specialize (IH Hr).
  cbn [splitlines keepends_lines].
  destruct (Ascii.eqb c LF) eqn:HLF.
  - apply Ascii.eqb_eq in HLF as ->. rewrite LF_is_linebreak.
    change (Ascii.eqb LF CR) with false. cbv iota.
    constructor; [by right|done].
  - unfold only_LF in Hc. rewrite HLF, orb_false_r in Hc.
    apply negb_true_iff in Hc. rewrite Hc.
    destruct IH as [|bare kept bares kepts Hline Hrest].
    + constructor; [by left|constructor].
    + constructor; [|done].
      destruct Hline as [->| ->]; [by left|by right].
Qed.

Lemma prefix_before_LF (needle line : string) :
  all_chars (differs LF) needle = true ->
  String.prefix needle (line +:+ String LF "") = String.prefix needle line.
Proof.
  revert line. induction needle as [|a needle IH]; intros line.
  - intros _. by destruct line.
  - cbn [all_chars]. intros [Ha Hn]%andb_true_iff.
    destruct line as [|b line].
    + rewrite append_nil_l, prefix_cons. cbn [String.prefix].
      unfold differs in Ha. apply negb_true_iff in Ha. by rewrite Ha.
    + rewrite append_cons, !prefix_cons. by rewrite IH.
Qed.

Lemma contains_before_LF (needle line : string) :
  needle <> EmptyString ->
  all_chars (differs LF) needle = true ->
  contains needle (line +:+ String LF "") = contains needle line.
Proof.
  intros Hne Hneedle. induction line as [|b line IH].
  - rewrite append_nil_l. cbn [contains].
    destruct needle as [|a needle]; [done|].
    cbn [all_chars] in Hneedle. apply andb_true_iff in Hneedle as [Ha _].
    rewrite prefix_cons. unfold differs in Ha. apply negb_true_iff in Ha.
    rewrite Ha. by destruct needle.
  - rewrite append_cons, !contains_cons, IH.
    by rewrite <- append_cons, prefix_before_LF.
Qed.

Lemma marks_agree (bares kepts : list string) :
  Forall2 same_line bares kepts ->
  count_name_marks bares = count_name_marks kepts.
Proof.
  induction 1 as [|bare kept bares kepts Hline _ IH]; [done|].
  assert (Hsame : contains "name:" kept = contains "name:" bare).
  { destruct Hline as [->| ->]; [done|].
    by apply contains_before_LF. }
  unfold count_name_marks in *.
  destruct (contains "name:" bare) eqn:Hbare.
  - rewrite !filter_cons_True by congruence. simpl. by rewrite IH.
  - rewrite !filter_cons_False by congruence. done.
Qed.

Lemma only_LF_no_CR (text : string) :
  all_chars only_LF text = true -> all_chars (differs CR) text = true.
Proof.
  apply all_chars_impl. intros c Hc. unfold differs.
  destruct (Ascii.eqb c CR) eqn:HCR; [|done].
  apply Ascii.eqb_eq in HCR as ->. done.
Qed.

Lemma universal_newlines_only_LF (text : string) :
  all_chars only_LF text = true -> universal_newlines text = text.
Proof.
  intros Htext. rewrite <- (append_nil_r text) at 1.
  rewrite universal_newlines_plain by by apply only_LF_no_CR.
  by rewrite append_nil_r.
Qed.

(** X18: The figure in the header and the count of the combiner agree.  For a
    text of the translator whose lines end with [\n] and with nothing else,
    the number that [save_conversion_results] writes after "Total
    conversions:" is the number of lines with ['name:'] that
    [combine_all_results] counts in the artifact. *)
Theorem header_figure_is_combiner_count (generated : datetime)
        (results : string) :
  all_chars only_LF results = true ->
  let total_conversions := count_name_marks (splitlines results) in
  count_name_marks
    (readlines (artifact_header generated total_conversions +:+ results))
  = total_conversions.
Proof.
  intros Htext total_conversions.
  rewrite header_adds_no_marks. unfold readlines.
  rewrite universal_newlines_only_LF by done.
  symmetry. by apply marks_agree, lines_agree.
Qed.

Lemma header_figure_is_combiner_count_witness :
  count_name_marks
    (readlines (artifact_header (ticking 1) 2
                +:+ ("- name: Total Orders" +:+ String LF ""
                     +:+ "  expr: SUM(OrderCount)" +:+ String LF ""
                     +:+ "- name: Total Amount" +:+ String LF ""
                     +:+ "  expr: SUM(Amount)")))
  = 2%nat.
Proof.
  apply (header_figure_is_combiner_count (ticking 1)
           ("- name: Total Orders" +:+ String LF ""
            +:+ "  expr: SUM(OrderCount)" +:+ String LF ""
            +:+ "- name: Total Amount" +:+ String LF ""
            +:+ "  expr: SUM(Amount)")).
  reflexivity.
Defined.

(** ** What a run writes and asks *)

Lemma worker_step (E : env) (batch_name : string)
      (metrics_data : list metric) (thread_id : nat) (w : world) :
  (exists text saved_file stored,
      process_metrics_batch E batch_name metrics_data thread_id w
      = (Ok (text, saved_file, length metrics_data),
         (process_metrics_batch E batch_name metrics_data thread_id w).2)
      /\ glob_match OUTPUT_FOLDER saved_file = true
      /\ files (process_metrics_batch E batch_name metrics_data thread_id w).2
         = <[saved_file := stored]> (files w))
  \/ (exists e,
        process_metrics_batch E batch_name metrics_data thread_id w
        = (Raise e,
           (process_metrics_batch E batch_name metrics_data thread_id w).2)
        /\ files (process_metrics_batch E batch_name metrics_data thread_id
                                        w).2
           = files w).
Proof.
  destruct (chain_invoke E (llm_calls w) (json_dumps E metrics_data))
    as [text|e] eqn:Hchain.
  - destruct (decide (OUTPUT_FOLDER ∈ dirs w)) as [Hdir|Hdir].
    + left.
      rewrite (worker_success E batch_name metrics_data thread_id w text
                 Hchain Hdir).
      eexists _, _, _. split; [reflexivity|].
      split; [apply artifact_found|reflexivity].
    + right.
      destruct (worker_no_folder E batch_name metrics_data thread_id w text
                  Hchain Hdir) as [e ->]. by exists e.
  - right.
    rewrite (worker_translator_down E batch_name metrics_data thread_id w e
               Hchain). by exists e.
Qed.

Lemma run_workers_files (E : env) (turns : list task) :
  forall w : world,
    (forall q, is_Some (files w !! q) ->
               is_Some (files (run_workers E turns w).2 !! q))
    /\ (forall f p, f ∈ (run_workers E turns w).1 -> reported f = Some p ->
          is_Some (files (run_workers E turns w).2 !! p)
          /\ glob_match OUTPUT_FOLDER p = true)
    /\ (forall path,
          (forall f, f ∈ (run_workers E turns w).1 ->
                     reported f <> Some path) ->
          files (run_workers E turns w).2 !! path = files w !! path).
Proof.
  induction turns as [|t turns IH]; intros w.
  - simpl. split; [done|]. split; [|done].
    intros f p Hin. by apply elem_of_nil in Hin.
  - cbn [run_workers].
    pose proof (worker_step E (task_name t) (task_data t) (task_num t) w)
      as Hstep.
    destruct (process_metrics_batch E (task_name t) (task_data t)
                                    (task_num t) w) as [r w1].
    destruct (IH w1) as (Hgrow & Hthere & Hframe).
    destruct (run_workers E turns w1) as [fs w2]. cbn [fst snd] in *.
    assert (Hkeep : forall q, is_Some (files w !! q) ->
                              is_Some (files w1 !! q)).
    { intros q Hq.
      destruct Hstep as [(text & p & stored & _ & _ & ->)|(e & _ & ->)];
        [|done].
      destruct (decide (p = q)) as [->|Hne].
      - rewrite lookup_insert_eq. by eexists.
      - by rewrite lookup_insert_ne. }
    split; [|split].
    + intros q Hq. by apply Hgrow, Hkeep.
    + intros f p Hin Hp. apply elem_of_cons in Hin as [->|Hin].
      * unfold reported in Hp. cbn [returned] in Hp.
        destruct Hstep as [(text & p' & stored & [= ->] & Hmatch & Hfiles)
                          |(e & [= ->] & _)]; [|done].
        injection Hp as <-. split; [|done].
        apply Hgrow. rewrite Hfiles, lookup_insert_eq. by eexists.
      * by eapply Hthere.
    + intros path Hpath. rewrite Hframe.
      2:{ intros f Hin. apply Hpath. by right. }
      destruct Hstep as [(text & p & stored & [= ->] & _ & ->)|(e & _ & ->)];
        [|done].
      apply lookup_insert_ne. intros ->.
      by apply (Hpath {| submitted := t;
                         returned := Ok (text, path, length (task_data t)) |});
        [left|].
Qed.

Lemma collect_file (f : future) : file (collect f) = reported f.
Proof.
  unfold collect, reported. by destruct (returned f) as [[[? ?] ?]|].
Qed.

(** X19: The run writes the artifacts it reports and nothing else.  For a
    non-empty list of batches: every file named by a successful entry is in
    the folder afterwards and is one the combiner looks for; and a path that
    no entry names holds afterwards what it held before. *)
Theorem run_writes_reported_artifacts (E : env)
        (run_picks done_picks : list nat)
        (metric_batches : list (list metric)) (max_workers : nat)
        (w : world) :
  metric_batches <> [] -> (0 < max_workers)%nat ->
  exists all_results w',
    process_batches_parallel E run_picks done_picks metric_batches
                             max_workers w
    = (Ok all_results, w')
    /\ (forall r p, r ∈ all_results -> file r = Some p ->
          is_Some (files w' !! p) /\ glob_match OUTPUT_FOLDER p = true)
    /\ (forall path,
          (forall r, r ∈ all_results -> file r <> Some path) ->
          files w' !! path = files w !! path).
Proof.
  intros Hne Hmw.
  pose proof (process_batches_parallel_run E run_picks done_picks
                metric_batches max_workers w Hne Hmw) as Hrun.
  cbv zeta in Hrun.
  destruct (run_workers_files E
              (pick_order run_picks (submit_all 1 metric_batches)) w)
    as (_ & Hthere & Hframe).
  destruct (run_workers E _ w) as [F w']. cbn [fst snd] in *.
  eexists _, w'. split; [exact Hrun|].
  assert (Hin : forall r,
             r ∈ py_sorted by_batch_num (collect <$> pick_order done_picks F)
             <-> exists f, f ∈ F /\ r = collect f).
  { intros r. rewrite py_sorted_Permutation, pick_order_Permutation.
    rewrite list_elem_of_fmap.
    split; [intros (f & -> & Hf)|intros (f & Hf & ->)]; eauto. }
  split.
  - intros r p Hr Hp. apply Hin in Hr as (f & Hf & ->).
    rewrite collect_file in Hp. by eapply Hthere.
  - intros path Hpath. apply Hframe. intros f Hf Hrep.
    apply (Hpath (collect f)); [apply Hin; eauto|].
    by rewrite collect_file.
Qed.

Lemma run_writes_reported_artifacts_witness :
  exists all_results w',
    process_batches_parallel env_down [] [] [[total_orders]] 4 harvest_world
    = (Ok all_results, w')
    /\ files w' !! "uc_converted_metrics/notes.txt"
       = files harvest_world !! "uc_converted_metrics/notes.txt".
Proof.
  destruct (run_writes_reported_artifacts env_down [] [] [[total_orders]] 4
              harvest_world)
    as (all_results & w' & Hrun & _ & Hframe); [done|lia|].
  exists all_results, w'. split; [exact Hrun|].
  apply Hframe. intros r Hr.
  vm_compute in Hrun. injection Hrun as <- _.
  apply list_elem_of_singleton in Hr as ->. discriminate.
Defined.

Lemma worker_asks_once (E : env) (batch_name : string)
      (metrics_data : list metric) (thread_id : nat) (w : world) :
  llm_calls (process_metrics_batch E batch_name metrics_data thread_id w).2
  = S (llm_calls w).
Proof.
  destruct (chain_invoke E (llm_calls w) (json_dumps E metrics_data))
    as [text|e] eqn:Hchain.
  - destruct (decide (OUTPUT_FOLDER ∈ dirs w)) as [Hdir|Hdir].
    + by rewrite (worker_success E batch_name metrics_data thread_id w text
                    Hchain Hdir).
    + by destruct (worker_no_folder E batch_name metrics_data thread_id w
                     text Hchain Hdir) as [e ->].
  - by rewrite (worker_translator_down E batch_name metrics_data thread_id w
                  e Hchain).
Qed.

Lemma run_workers_asks (E : env) (turns : list task) (w : world) :
  llm_calls (run_workers E turns w).2 = (llm_calls w + length turns)%nat.
Proof.
  revert w. induction turns as [|t turns IH]; intros w.
  - simpl. lia.
  - cbn [run_workers].
    pose proof (worker_asks_once E (task_name t) (task_data t) (task_num t) w)
      as Hone.
    destruct (process_metrics_batch _ _ _ _ _) as [r w1].
    specialize (IH w1). destruct (run_workers E turns w1) as [fs w2].
    cbn [fst snd length] in *. lia.
Qed.

(** X20: One request per batch: over a run of [n >= 1] batches the translator is
    asked exactly [n] times, whether the batches succeed or fail; nothing is
    asked twice. *)
Theorem one_request_per_batch (E : env) (run_picks done_picks : list nat)
        (metric_batches : list (list metric)) (max_workers : nat)
        (w : world) :
  metric_batches <> [] -> (0 < max_workers)%nat ->
  exists all_results w',
    process_batches_parallel E run_picks done_picks metric_batches
                             max_workers w
    = (Ok all_results, w')
    /\ llm_calls w' = (llm_calls w + length metric_batches)%nat.
Proof.
  intros Hne Hmw.
  pose proof (process_batches_parallel_run E run_picks done_picks
                metric_batches max_workers w Hne Hmw) as Hrun.
  cbv zeta in Hrun.
  eexists _, _. split; [exact Hrun|].
  rewrite run_workers_asks, pick_order_Permutation.
  pose proof (f_equal length (submit_all_nums 1 metric_batches)) as Hn.
  rewrite length_fmap, length_seq in Hn. by rewrite Hn.
Qed.

Lemma one_request_per_batch_witness :
  exists all_results w',
    process_batches_parallel env_down [] []
      [[total_orders]; [total_amount]] 4 fresh_world
    = (Ok all_results, w')
    /\ llm_calls w' = 2%nat.
Proof.
  destruct (one_request_per_batch env_down [] []
              [[total_orders]; [total_amount]] 4 fresh_world)
    as (all_results & w' & Hrun & Hcalls); [done|lia|].
  by exists all_results, w'.
Defined.

(** ** Measures that are left out *)

Lemma simplify_measures_omits (py_str : json -> string)
      (before after : list json) (fields : list (string * json))
      (formatted : string) (acc : list metric) :
  _format_expression py_str (measure_expression (JDict fields))
  = Ok formatted ->
  truthy (measure_name (JDict fields)) = false \/ formatted = EmptyString ->
  simplify_measures py_str (before ++ JDict fields :: after) acc
  = simplify_measures py_str (before ++ after) acc.
Proof.
  intros Hfmt Hempty.
  revert acc. induction before as [|m before IH]; intros acc.
  - simpl. simpl in Hfmt, Hempty. rewrite Hfmt.
    destruct Hempty as [-> | ->]; [done|].
    by rewrite andb_false_r.
  - simpl.
    destruct (py_get m "name" (JStr "")) as [nm|]; [|done].
    destruct (py_get m "expression" (JStr "")) as [ex|]; [|done].
    destruct (_format_expression py_str ex) as [fe|]; [|done].
    destruct (truthy nm && nonempty fe); apply IH.
Qed.

Lemma simplify_measures_stops (py_str : json -> string)
      (before after : list json) (fields : list (string * json))
      (e : exn) (acc : list metric) :
  _format_expression py_str (measure_expression (JDict fields)) = Raise e ->
  exists e', simplify_measures py_str (before ++ JDict fields :: after) acc
             = Raise e'.
Proof.
  intros Hfmt.
  revert acc. induction before as [|m before IH]; intros acc.
  - simpl. simpl in Hfmt. rewrite Hfmt. by exists e.
  - simpl.
    destruct (py_get m "name" (JStr "")) as [nm|e1]; [|by exists e1].
    destruct (py_get m "expression" (JStr "")) as [ex|e2]; [|by exists e2].
    destruct (_format_expression py_str ex) as [fe|e3]; [|by exists e3].
    destruct (truthy nm && nonempty fe); apply IH.
Qed.

(** C10, amended: a measure whose name is empty (any value that tests
    false), or whose expression is missing or formats to the empty string,
    is left out of the list that [read_metrics_to_simple_json] returns,
    provided its expression can be formatted: the call gives what it gives
    without that measure, and a list that is returned is shorter than the
    list of measures.  The expression is formatted before the name is
    tested: a measure whose expression cannot be formatted makes the whole
    call raise [Exception], with an empty name as with any other. *)
Theorem read_metrics_omits_empty (py_str : json -> string)
        (file_path : string) (pairs pairs' fields : list (string * json))
        (before after : list json) :
  let measure := JDict fields in
  dict_lookup pairs "measures" = Some (JList (before ++ measure :: after)) ->
  dict_lookup pairs' "measures" = Some (JList (before ++ after)) ->
  (forall formatted,
      _format_expression py_str (measure_expression measure) = Ok formatted ->
      truthy (measure_name measure) = false \/ formatted = EmptyString ->
      read_metrics_to_simple_json py_str file_path (Loaded (JDict pairs))
      = read_metrics_to_simple_json py_str file_path (Loaded (JDict pairs'))
      /\ (forall simplified,
            read_metrics_to_simple_json py_str file_path
              (Loaded (JDict pairs))
            = Ok simplified ->
            (length simplified < length (before ++ measure :: after))%nat))
  /\ (forall e,
        _format_expression py_str (measure_expression measure) = Raise e ->
        exists e',
          read_metrics_to_simple_json py_str file_path (Loaded (JDict pairs))
          = Raise (Exn Exception
                       ("Error reading metrics file: " +:+ exn_str e'))).
Proof.
  intros measure Hwith Hwithout. subst measure. split.
  - intros formatted Hfmt Hempty.
    assert (Hskip := simplify_measures_omits py_str before after fields
                       formatted [] Hfmt Hempty).
    unfold read_metrics_to_simple_json, read_body, py_get.
    rewrite Hwith, Hwithout. simpl. rewrite Hskip.
    split; [done|].
    intros simplified Hrun.
    destruct (simplify_measures py_str (before ++ after) [])
      as [out|e] eqn:Hs.
    + injection Hrun as <-.
      apply simplify_measures_length in Hs.
      rewrite !length_app in *. simpl in *. lia.
    + by destruct (exn_class e).
  - intros e Hfmt.
    destruct (simplify_measures_stops py_str before after fields e [] Hfmt)
      as [e' He'].
    unfold read_metrics_to_simple_json, read_body, py_get.
    rewrite Hwith. simpl. rewrite He'.
    rewrite (simplify_measures_raises py_str _ _ e' He').
    by eexists.
Qed.

Lemma read_metrics_omits_empty_witness :
  read_metrics_to_simple_json (fun _ => EmptyString) "metrics.json"
    (Loaded (JDict [("model", JStr "Sales"); ("measures",
       JList ([JDict [("name", JStr "Total"); ("expression", JStr "SUM(x)")]]
              ++ JDict [("name", JStr ""); ("expression", JStr "SUM(y)")]
              :: [JDict [("name", JStr "Ghost")];
                  JDict [("name", JStr "Blank");
                         ("expression", JList [JStr "  "; JStr ""])]]))]))
  = Ok [{| name := JStr "Total"; expression := "SUM(x)" |}].
Proof.
  destruct (read_metrics_omits_empty (fun _ => EmptyString) "metrics.json"
              [("model", JStr "Sales"); ("measures",
                 JList ([JDict [("name", JStr "Total");
                                ("expression", JStr "SUM(x)")]]
                        ++ JDict [("name", JStr "");
                                  ("expression", JStr "SUM(y)")]
                        :: [JDict [("name", JStr "Ghost")];
                            JDict [("name", JStr "Blank");
                                   ("expression",
                                    JList [JStr "  "; JStr ""])]]))]
              [("measures",
                 JList ([JDict [("name", JStr "Total");
                                ("expression", JStr "SUM(x)")]]
                        ++ [JDict [("name", JStr "Ghost")];
                            JDict [("name", JStr "Blank");
                                   ("expression",
                                    JList [JStr "  "; JStr ""])]]))]
              [("name", JStr ""); ("expression", JStr "SUM(y)")]
              [JDict [("name", JStr "Total"); ("expression", JStr "SUM(x)")]]
              [JDict [("name", JStr "Ghost")];
               JDict [("name", JStr "Blank");
                      ("expression", JList [JStr "  "; JStr ""])]]
              eq_refl eq_refl) as [Homit _].
  destruct (Homit "SUM(y)" eq_refl (or_introl eq_refl)) as [Heq _].
  rewrite Heq. reflexivity.
Defined.

(** C10, as stated, fails: the only measure of the file has an empty name,
    and the read raises, because the expression, a list with a number in
    it, is formatted before the name is tested. *)
Lemma empty_name_measure_raises :
  read_metrics_to_simple_json (fun _ => EmptyString) "metrics.json"
    (Loaded (JDict [("measures",
       JList [JDict [("name", JStr ""); ("expression", JList [JInt 1])]])]))
  = Raise (Exn Exception
               "Error reading metrics file: 'int' object has no attribute 'strip'").
Proof. reflexivity. Qed.

(** ** The total of the combined file *)

Lemma run_workers_texts (E : env) (marks : list metric -> nat)
      (turns : list task) :
  forall w : world,
    OUTPUT_FOLDER ∈ dirs w ->
    (forall (j : nat) t, turns !! j = Some t ->
       exists text,
         chain_invoke E (llm_calls w + j) (json_dumps E (task_data t))
         = Ok text
         /\ count_name_marks (readlines text) = marks (task_data t)) ->
    exists arts : list (string * string),
      Forall (fun f => is_ok (returned f) = true) (run_workers E turns w).1
      /\ dirs (run_workers E turns w).2 = dirs w
      /\ now_calls (run_workers E turns w).2
         = (now_calls w + 2 * length turns)%nat
      /\ files (run_workers E turns w).2 = foldl store (files w) arts
      /\ arts.*1 = saved_path E w <$> seq 0 (length turns)
      /\ Forall2 (fun a t => count_name_marks (readlines a.2)
                             = marks (task_data t)) arts turns.
Proof.
  induction turns as [|t turns IH]; intros w Hdir Hchain.
  - exists []. simpl. repeat split; try done; try lia.
  - destruct (Hchain 0%nat t eq_refl) as (text & Htext & Hmarks).
    rewrite Nat.add_0_r in Htext.
    cbn [run_workers].
    rewrite (worker_success E (task_name t) (task_data t) (task_num t) w
               text Htext Hdir).
    set (path := os_path_join OUTPUT_FOLDER
                   (artifact_name (clock E (now_calls w)))).
    set (stored := artifact_header (clock E (S (now_calls w)))
                     (count_name_marks (splitlines text)) +:+ text).
    set (w1 := {| dirs := dirs w; files := <[path := stored]> (files w);
                  now_calls := S (S (now_calls w));
                  llm_calls := S (llm_calls w) |}).
    destruct (IH w1) as (arts & Hok & Hdirs & Hnow & Hfiles & Hnames & Hcount).
    { done. }
    { intros j t' Hj. destruct (Hchain (S j) t' Hj) as (text' & H1 & H2).
      exists text'. split; [|done]. simpl.
      by replace (S (llm_calls w + j)) with (llm_calls w + S j)%nat by lia. }
    destruct (run_workers E turns w1) as [fs w2]. simpl in *.
    exists ((path, stored) :: arts). repeat split.
    + constructor; [done|done].
    + done.
    + rewrite Hnow. lia.
    + by rewrite Hfiles.
    + rewrite fmap_cons. f_equal.
      * unfold saved_path. by rewrite Nat.mul_0_r, Nat.add_0_r.
      * rewrite Hnames. rewrite <- fmap_S_seq, <- list_fmap_compose.
        apply list_fmap_ext. intros i j _. unfold saved_path. simpl.
        do 3 f_equal. lia.
    + constructor; [|done]. simpl. subst stored.
      by rewrite header_adds_no_marks.
Qed.

Lemma marks_of_texts (marks : list metric -> nat)
      (arts : list (string * string)) (turns : list task) :
  Forall2 (fun a t => count_name_marks (readlines a.2)
                      = marks (task_data t)) arts turns ->
  sum_list ((fun a => count_name_marks (readlines a.2)) <$> arts)
  = sum_list ((fun t => marks (task_data t)) <$> turns).
Proof.
  induction 1 as [|a t arts turns Hat _ IH]; [done|].
  rewrite !fmap_cons. cbn [sum_list sum_list_with]. by rewrite Hat, IH.
Qed.

(** C8, amended: start from a folder without artifacts, let every translator
    call of the run succeed, with a text that, read back, has [marks batch]
    lines with ['name:'] for the batch it was asked about, and let the
    saves of the run get names that differ.  Then every worker succeeds,
    the counts of the outcomes add up to the number of input units, and the
    combined file reports as its total the number of lines with ['name:']
    in the texts, [marks] summed over the batches, whatever the number of
    units.  The total is the sum of the counts when every text has one such
    line per unit of its batch. *)
Theorem combined_total_counts_name_lines (E : env)
        (run_picks done_picks : list nat)
        (metric_batches : list (list metric)) (max_workers : nat)
        (w : world) (marks : list metric -> nat) :
  metric_batches <> [] -> (0 < max_workers)%nat ->
  OUTPUT_FOLDER ∈ dirs w ->
  (forall path, glob_match OUTPUT_FOLDER path = true ->
                files w !! path = None) ->
  (forall (j : nat) batch,
      (j < length metric_batches)%nat -> batch ∈ metric_batches ->
      exists text,
        chain_invoke E (llm_calls w + j) (json_dumps E batch) = Ok text
        /\ count_name_marks (readlines text) = marks batch) ->
  NoDup ((fun j => artifact_name (clock E (now_calls w + 2 * j)))
           <$> seq 0 (length metric_batches)) ->
  exists all_results w1 combined w2 body,
    process_batches_parallel E run_picks done_picks metric_batches
                             max_workers w
    = (Ok all_results, w1)
    /\ Forall (fun r => failed r = false) all_results
    /\ sum_list (count <$> all_results) = length (concat metric_batches)
    /\ combine_all_results E OUTPUT_FOLDER w1 = (Ok (Some combined), w2)
    /\ files w2 !! combined
       = Some (combined_header (clock E (S (now_calls w1)))
                               (length all_results)
               +:+ body
               +:+ combined_footer (sum_list (marks <$> metric_batches))
                                   (length all_results)
                                   (clock E (S (S (now_calls w1)))))
    /\ ((forall batch, batch ∈ metric_batches -> marks batch = length batch) ->
        sum_list (marks <$> metric_batches)
        = sum_list (count <$> all_results)).
Proof.
  intros Hne Hmw Hdir Hfresh Hchain Hstamps.
  set (tasks := submit_all 1 metric_batches).
  set (turns := pick_order run_picks tasks).
  assert (Hturns : turns ≡ₚ tasks) by apply pick_order_Permutation.
  assert (Hdata : task_data <$> tasks = metric_batches)
    by apply submit_all_data.
  assert (Hlen : length turns = length metric_batches).
  { rewrite Hturns. apply (f_equal length) in Hdata.
    by rewrite length_fmap in Hdata. }
  assert (Hunits : sum_list ((fun t => length (task_data t)) <$> turns)
                   = length (concat metric_batches)).
  { rewrite Hturns, length_concat_sum, <- Hdata, <- list_fmap_compose.
    done. }
  assert (Hlines : sum_list ((fun t => marks (task_data t)) <$> turns)
                   = sum_list (marks <$> metric_batches)).
  { rewrite Hturns, <- Hdata, <- list_fmap_compose. done. }
  destruct (run_workers_texts E marks turns w Hdir)
    as (arts & Hok & Hdirs & Hnow & Hfiles & Hnames & Hmarks).
  { intros j t Hj. apply Hchain.
    - rewrite <- Hlen. by eapply lookup_lt_Some.
    - rewrite <- Hdata. apply list_elem_of_fmap_2.
      rewrite <- Hturns. by eapply list_elem_of_lookup_2. }
  pose proof (process_batches_parallel_run E run_picks done_picks
                metric_batches max_workers w Hne Hmw) as Hrun.
  cbv zeta in Hrun. fold tasks turns in Hrun.
  pose proof (run_workers_submitted E turns w) as Hsub.
  pose proof (run_workers_ran E turns w) as Hran.
  destruct (run_workers E turns w) as [F w1]. simpl in *.
  destruct (counts_of_successes E F Hran Hok) as [Hnofail Hcounts].
  assert (Hperm : py_sorted by_batch_num (collect <$> pick_order done_picks F)
                  ≡ₚ collect <$> F).
  { by rewrite py_sorted_Permutation, pick_order_Permutation. }
  assert (Hmany : length (py_sorted by_batch_num
                            (collect <$> pick_order done_picks F))
                  = length metric_batches).
  { rewrite Hperm, length_fmap, <- Hlen, <- Hsub, length_fmap. done. }
  assert (Hnodup : NoDup arts.*1).
  { rewrite Hnames, Hlen. unfold saved_path.
    rewrite (list_fmap_compose
               (fun j => artifact_name (clock E (now_calls w + 2 * j)))
               (append (dir_base OUTPUT_FOLDER))).
    apply NoDup_fmap_2; [|done]. intros a b. apply append_inj. }
  assert (Hfound : Forall (fun a => glob_match OUTPUT_FOLDER a.1 = true) arts).
  { apply Forall_forall. intros a Ha.
    assert (a.1 ∈ arts.*1) as Hin by by apply list_elem_of_fmap_2.
    rewrite Hnames in Hin.
    apply list_elem_of_fmap in Hin as (j & -> & _). apply artifact_found. }
  assert (Hlist : result_files_of OUTPUT_FOLDER w1 ≡ₚ arts.*1).
  { unfold result_files_of. rewrite py_sorted_Permutation, Hfiles.
    by apply artifacts_listing. }
  assert (Hcount : length (result_files_of OUTPUT_FOLDER w1)
                   = length metric_batches).
  { rewrite Hlist, Hnames, length_fmap, length_seq. done. }
  assert (Hstored : Forall (fun a => files w1 !! a.1 = Some a.2) arts).
  { apply Forall_forall. intros [p v] Ha. rewrite Hfiles.
    by apply foldl_store_lookup_in. }
  assert (Htotal : sum_list (marks_in w1 <$> result_files_of OUTPUT_FOLDER w1)
                   = sum_list (marks <$> metric_batches)).
  { rewrite Hlist, (marks_of_artifacts w1 arts Hstored),
      (marks_of_texts marks arts turns Hmarks). done. }
  destruct (combine_reports_marks E OUTPUT_FOLDER w1)
    as (body & w2 & Hcombine & Hcombined).
  { by rewrite Hdirs. }
  { intros Hnil. rewrite Hnil in Hcount. simpl in Hcount.
    destruct metric_batches; [done|discriminate]. }
  rewrite Htotal, Hcount in Hcombined.
  assert (Hsum : sum_list
                   (count <$> py_sorted by_batch_num
                                (collect <$> pick_order done_picks F))
                 = length (concat metric_batches)).
  { by rewrite Hperm, Hcounts, Hsub. }
  eexists _, w1, _, w2, body. split; [exact Hrun|].
  split; [by rewrite Hperm|].
  split; [exact Hsum|].
  split; [exact Hcombine|].
  split; [by rewrite Hmany|].
  intros Hone. rewrite Hsum, length_concat_sum. f_equal.
  apply Forall_fmap_ext, Forall_forall. intros batch Hbatch. by apply Hone.
Qed.

Lemma combined_total_counts_name_lines_witness :
  exists all_results w1 combined w2 body,
    process_batches_parallel env_prose [1%nat] []
                             [[total_orders]; [total_amount; total_orders]]
                             4 fresh_world
    = (Ok all_results, w1)
    /\ sum_list (count <$> all_results) = 3%nat
    /\ combine_all_results env_prose OUTPUT_FOLDER w1
       = (Ok (Some combined), w2)
    /\ files w2 !! combined
       = Some (combined_header (clock env_prose (S (now_calls w1)))
                               (length all_results)
               +:+ body
               +:+ combined_footer 0 (length all_results)
                                   (clock env_prose (S (S (now_calls w1))))).
Proof.
  destruct (combined_total_counts_name_lines env_prose [1%nat] []
              [[total_orders]; [total_amount; total_orders]] 4 fresh_world
              (fun _ => 0%nat))
    as (all_results & w1 & combined & w2 & body
        & Hrun & _ & Hsum & Hcombine & Hfile & _).
  { done. }
  { lia. }
  { apply fresh_world_has_folder. }
  { intros path _. apply lookup_empty. }
  { intros j batch Hj Hbatch. eexists. split; reflexivity. }
  { apply (bool_decide_unpack _). vm_compute. exact I. }
  exists all_results, w1, combined, w2, body.
  split; [exact Hrun|]. split; [exact Hsum|]. split; [exact Hcombine|].
  exact Hfile.
Defined.
